(** * Transmit: the orchestrator of @boringnode/transmit

    A shallow embedding of [src/transmit.ts] and
    [src/transport_message_type.ts].  The class [Transmit] is a record of its
    private fields; its methods are computations in a small monad that
    threads the instance, propagates JavaScript exceptions and collects, in
    order, the calls made on the external collaborators (the message bus, the
    event emitter and the streams' sinks).

    The stream manager, the stream and the channel pattern matcher live in
    files that are not part of the sources at hand ([stream_manager.ts],
    [stream.ts], the pattern library); they are modelled from the
    specification and marked as such. *)

From Stdlib Require Import String Ascii List ZArith Bool Lia.
Import ListNotations.
Open Scope string_scope.
Open Scope list_scope.
Set Warnings "-register-all".

(* ------------------------------------------------------------------ *)
(** ** Payloads *)

(** Modelled from the spec: the type [Broadcastable] ([types/main.ts] is not
    among the sources).  "Payload is an arbitrary serializable value
    (object/array/scalar), never raw binary."  Numbers are represented by
    integers. *)
Inductive Broadcastable : Type :=
| BNull
| BBoolean (b : bool)
| BNumber (n : Z)
| BString (s : string)
| BArray (items : list Broadcastable)
| BObject (fields : list (string * Broadcastable)).

(** The object literal [{}]. *)
Definition empty_object : Broadcastable := BObject [].

(** JavaScript's ToBoolean on a payload value: [null], [false], [0] and the
    empty string are falsy; every array and object is truthy. *)
Definition truthy (v : Broadcastable) : bool :=
  match v with
  | BNull => false
  | BBoolean b => b
  | BNumber n => negb (Z.eqb n 0)
  | BString s => negb (String.eqb s "")
  | BArray _ => true
  | BObject _ => true
  end.

(** ToBoolean on an optional argument: an absent argument is [undefined]. *)
Definition truthy_arg (payload : option Broadcastable) : bool :=
  match payload with
  | None => false
  | Some v => truthy v
  end.

(* ------------------------------------------------------------------ *)
(** ** Messages ([transport_message_type.ts], the type [TransmitMessage]) *)

Module TransportMessageType.
Definition Broadcast : Z := 1.
Definition Subscribe : Z := 2.
Definition Unsubscribe : Z := 3.
End TransportMessageType.

(** The tagged union [TransmitMessage]; the payload of a Subscribe or
    Unsubscribe message is [{ uid }]. *)
Inductive TransmitMessage : Type :=
| MsgBroadcast (channel : string) (payload : Broadcastable)
| MsgSubscribe (channel : string) (uid : string)
| MsgUnsubscribe (channel : string) (uid : string).

(** The [type] field of a message. *)
Definition message_type (m : TransmitMessage) : Z :=
  match m with
  | MsgBroadcast _ _ => TransportMessageType.Broadcast
  | MsgSubscribe _ _ => TransportMessageType.Subscribe
  | MsgUnsubscribe _ _ => TransportMessageType.Unsubscribe
  end.

(** What a stream is asked to write: [{ data: { channel, payload } }]. *)
Record Message : Type := {
  data_channel : string;
  data_payload : Broadcastable
}.

(** The keepalive message of [#ping]. *)
Definition ping_message : Message :=
  {| data_channel := "$$transmit/ping"; data_payload := empty_object |}.

(* ------------------------------------------------------------------ *)
(** ** Channel pattern matcher *)

(** Modelled from the spec: the channel pattern matcher (an external library
    in the repository).  "Patterns are /-delimited segments; a segment
    prefixed with a distinguishing marker (e.g. :name) binds that segment's
    literal text to name in the result params; all other segments must match
    literally and exactly.  A pattern with N segments only matches channel
    names with exactly N segments." *)
Fixpoint split_on (sep : ascii) (s : string) : list string :=
  match s with
  | EmptyString => [EmptyString]
  | String c rest =>
      if Ascii.eqb c sep then EmptyString :: split_on sep rest
      else
        match split_on sep rest with
        | seg :: segs => String c seg :: segs
        | [] => [String c EmptyString]
        end
  end.

Inductive PatternSegment : Type :=
| Literal (text : string)
| Named (name : string).

Definition compile_segment (seg : string) : PatternSegment :=
  match seg with
  | String c name => if Ascii.eqb c ":"%char then Named name else Literal seg
  | EmptyString => Literal seg
  end.

Definition compile (pattern : string) : list PatternSegment :=
  map compile_segment (split_on "/"%char pattern).

Fixpoint match_segments (pattern : list PatternSegment) (segs : list string)
  : option (list (string * string)) :=
  match pattern, segs with
  | [], [] => Some []
  | Literal text :: pattern', seg :: segs' =>
      if String.eqb text seg then match_segments pattern' segs' else None
  | Named name :: pattern', seg :: segs' =>
      option_map (cons (name, seg)) (match_segments pattern' segs')
  | _, _ => None
  end.

Definition match_channel (compiled : list PatternSegment) (channel : string)
  : option (list (string * string)) :=
  match_segments compiled (split_on "/"%char channel).

(* ------------------------------------------------------------------ *)
(** ** Streams, the stream manager and the orchestrator's state *)

(** Modelled from the spec: the write sink of a stream ([stream.ts] is not
    among the sources).  "Writing to a Stream's sink ... may fail": a write
    on a [SinkBroken] sink raises [TransportWriteFailure]. *)
Inductive Sink : Type := SinkOpen | SinkBroken.

Definition sink_open (k : Sink) : bool :=
  match k with SinkOpen => true | SinkBroken => false end.

(** JavaScript exceptions that a method of [Transmit] can let through. *)
Inductive Exn : Type :=
| TransportWriteFailure (uid : string)
| InvalidDuration (expression : string)
| DuplicateStream (uid : string).

(** How a call ends: it returns a value or throws. *)
Inductive Completion (A : Type) : Type :=
| Returned (a : A)
| Thrown (e : Exn).
Arguments Returned {A} a.
Arguments Thrown {A} e.

(** The timer handle returned by [setInterval]; [clearInterval] marks it. *)
Record Timeout : Type := { delay : Z; cleared : bool }.

Definition clearInterval (tm : Timeout) : Timeout :=
  {| delay := delay tm; cleared := true |}.

(** The pluggable bus driver handed to the constructor; opaque here. *)
Inductive Transport : Type := transport_driver (name : string).

(** [new Bus(transport, { retryQueue: { enabled: true } })]. *)
Record Bus : Type := { bus_transport : Transport; retryQueue_enabled : bool }.

(** [config.pingInterval]: a number of milliseconds or a duration string. *)
Inductive PingInterval : Type :=
| PingNumber (ms : Z)
| PingString (duration : string).

Record TransportConfig : Type := { transport_channel : option string }.

(** Modelled from the spec: [TransmitConfig] ([types/main.ts] is not among
    the sources): "ping interval (disabled, a duration, or a numeric
    millisecond value), bus transport channel name". *)
Record TransmitConfig : Type := {
  pingInterval : option PingInterval;
  transport : option TransportConfig
}.

Section Model.

(** The application context, [Context extends unknown]: never inspected. *)
Context {Ctx : Type}.

(** [string.milliseconds.parse] of @poppinss/utils: the milliseconds a
    duration expression stands for; it throws on an expression it cannot
    read, which is [None] here. *)
Variable milliseconds_parse : string -> option Z.

(** Modelled from the spec: [Stream].  "Identity: uid. Attributes: opaque
    write sink, opaque application context, a mutable set of subscribed
    channel names."  A stream is live while the manager's registry holds it;
    the channel index is the same relation read by channel. *)
Record Stream : Type := {
  getUid : string;
  stream_context : Ctx;
  sink : Sink;
  subscriptions : list string
}.

(** An authorization predicate, [(context, params) -> boolean]; a rejected
    awaitable counts as a denial, so the outcome is a boolean. *)
Definition AccessCallback : Type :=
  option Ctx -> list (string * string) -> bool.

(** Modelled from the spec: the state of the [StreamManager]
    ([stream_manager.ts] is not among the sources): the live streams in
    registration order and the authorization entries in registration
    order. *)
Record StreamManager : Type := {
  streams : list Stream;
  securedChannels : list (string * AccessCallback)
}.

(** The payloads of [TransmitLifecycleHooks]. *)
Inductive LifecycleEvent : Type :=
| OnConnect (uid : string) (context : option Ctx)
| OnDisconnect (uid : string) (context : option Ctx)
| OnBroadcast (channel : string) (payload : Broadcastable)
| OnSubscribe (uid : string) (channel : string) (context : option Ctx)
| OnUnsubscribe (uid : string) (channel : string) (context : option Ctx).

(** Calls made on the external collaborators, as an observer sees them. *)
Inductive Effect : Type :=
| BusSubscribe (topic : string)
| BusPublish (topic : string) (message : TransmitMessage)
| BusDisconnect
| Emit (event : LifecycleEvent)
| SinkWrite (uid : string) (message : Message).

(** The private fields of the class [Transmit]. *)
Record Transmit : Type := {
  config : TransmitConfig;
  manager : StreamManager;
  transportChannel : string;
  bus : option Bus;
  interval : option Timeout
}.

(** *** The monad of the methods *)

Record Outcome (A : Type) : Type := {
  result : Completion A;
  final : Transmit;
  effects : list Effect
}.
Arguments result {A} o.
Arguments final {A} o.
Arguments effects {A} o.

Definition M (A : Type) : Type := Transmit -> Outcome A.

Definition ret {A : Type} (a : A) : M A :=
  fun t => {| result := Returned a; final := t; effects := [] |}.

Definition bind {A B : Type} (m : M A) (k : A -> M B) : M B :=
  fun t =>
    let o := m t in
    match result o with
    | Returned a =>
        let o' := k a (final o) in
        {| result := result o'; final := final o';
           effects := effects o ++ effects o' |}
    | Thrown e =>
        {| result := Thrown e; final := final o; effects := effects o |}
    end.

Definition throw {A : Type} (e : Exn) : M A :=
  fun t => {| result := Thrown e; final := t; effects := [] |}.

Definition tell (e : Effect) : M unit :=
  fun t => {| result := Returned tt; final := t; effects := [e] |}.

Definition this : M Transmit :=
  fun t => {| result := Returned t; final := t; effects := [] |}.

Definition assign (t' : Transmit) : M unit :=
  fun _ => {| result := Returned tt; final := t'; effects := [] |}.

Notation "x <- m ;; k" := (bind m (fun x => k))
  (at level 61, m at next level, right associativity).
Notation "m ;; k" := (bind m (fun _ => k))
  (at level 61, right associativity).

(** [for (const x of xs) body(x)]: an exception leaves the loop. *)
Fixpoint for_each {A : Type} (body : A -> M unit) (xs : list A) : M unit :=
  match xs with
  | [] => ret tt
  | x :: xs' => body x ;; for_each body xs'
  end.

(** *** The collaborators' operations *)

(** [void this.#emittery.emit(event, payload)]. *)
Definition emit (event : LifecycleEvent) : M unit := tell (Emit event).

(** [void this.#bus?.publish(this.#transportChannel, message)]. *)
Definition bus_publish (message : TransmitMessage) : M unit :=
  t <- this ;;
  match bus t with
  | Some _ => tell (BusPublish (transportChannel t) message)
  | None => ret tt
  end.

(** [await this.#bus?.disconnect()]. *)
Definition bus_disconnect : M unit :=
  t <- this ;;
  match bus t with
  | Some _ => tell BusDisconnect
  | None => ret tt
  end.

(** Modelled from the spec: [Stream.writeMessage] ([stream.ts] is not among
    the sources): "an object exposing write(message)" whose write "may
    fail". *)
Definition writeMessage (s : Stream) (message : Message) : M unit :=
  if sink_open (sink s) then tell (SinkWrite (getUid s) message)
  else throw (TransportWriteFailure (getUid s)).

(** *** The stream manager's operations *)

(** Modelled from the spec: [StreamManager.findByChannel]: "returns the live
    streams currently indexed for that exact channel name". *)
Definition findByChannel (m : StreamManager) (channel : string) : list Stream :=
  filter (fun s => existsb (String.eqb channel) (subscriptions s)) (streams m).

(** Modelled from the spec: [StreamManager.getAllSubscribers]: "iterable of
    (Stream, subscription-set); used for operations that must touch every
    live connection". *)
Definition getAllSubscribers (m : StreamManager)
  : list (Stream * list string) :=
  map (fun s => (s, subscriptions s)) (streams m).

Definition has_stream (m : StreamManager) (uid : string) : bool :=
  existsb (fun s => String.eqb (getUid s) uid) (streams m).

Definition is_subscribed (m : StreamManager) (uid channel : string) : bool :=
  existsb (fun s => String.eqb (getUid s) uid) (findByChannel m channel).

Definition with_subscriptions (s : Stream) (chans : list string) : Stream :=
  {| getUid := getUid s; stream_context := stream_context s;
     sink := sink s; subscriptions := chans |}.

(** Adds [channel] to the subscription set of the stream [uid] (and so to the
    index); "idempotent if already subscribed". *)
Definition index_subscribe (uid channel : string) (m : StreamManager)
  : StreamManager :=
  {| streams :=
       map (fun s =>
              if String.eqb (getUid s) uid
              then if existsb (String.eqb channel) (subscriptions s) then s
                   else with_subscriptions s (subscriptions s ++ [channel])
              else s)
           (streams m);
     securedChannels := securedChannels m |}.

(** Removes [channel] from the subscription set of the stream [uid]. *)
Definition index_unsubscribe (uid channel : string) (m : StreamManager)
  : StreamManager :=
  {| streams :=
       map (fun s =>
              if String.eqb (getUid s) uid
              then with_subscriptions s
                     (filter (fun c => negb (String.eqb channel c))
                             (subscriptions s))
              else s)
           (streams m);
     securedChannels := securedChannels m |}.

Fixpoint lookup_exact (channel : string)
  (registry : list (string * AccessCallback)) : option AccessCallback :=
  match registry with
  | [] => None
  | (pattern, callback) :: rest =>
      if String.eqb pattern channel then Some callback
      else lookup_exact channel rest
  end.

Fixpoint first_match (channel : string)
  (registry : list (string * AccessCallback))
  : option (AccessCallback * list (string * string)) :=
  match registry with
  | [] => None
  | (pattern, callback) :: rest =>
      match match_channel (compile pattern) channel with
      | Some params => Some (callback, params)
      | None => first_match channel rest
      end
  end.

(** Modelled from the spec: the authorization lookup of the stream manager:
    "looks up by exact pattern first (literal channel == registered pattern)
    before falling back to segment-wise matching across all registered
    patterns in registration order, returning the first match"; "if no
    authorization entry matches the channel at all, policy is
    allow-by-default". *)
Definition verifyAccess (m : StreamManager) (channel : string)
  (context : option Ctx) : bool :=
  match lookup_exact channel (securedChannels m) with
  | Some callback =>
      callback context
        (match match_channel (compile channel) channel with
         | Some params => params
         | None => []
         end)
  | None =>
      match first_match channel (securedChannels m) with
      | Some (callback, params) => callback context params
      | None => true
      end
  end.

(** The parameters of [StreamManager.subscribe]; a callback receives
    [{ uid, channel, context }]. *)
Record SubscribeParams : Type := {
  sub_uid : string;
  sub_channel : string;
  sub_context : option Ctx;
  skipAuthorization : bool;
  onSubscribe : option (string -> string -> option Ctx -> M unit)
}.

Record UnsubscribeParams : Type := {
  unsub_uid : string;
  unsub_channel : string;
  unsub_context : option Ctx;
  onUnsubscribe : option (string -> string -> option Ctx -> M unit)
}.

Definition set_manager (m : StreamManager) : M unit :=
  t <- this ;;
  assign {| config := config t; manager := m;
            transportChannel := transportChannel t; bus := bus t;
            interval := interval t |}.

Definition set_interval (i : option Timeout) : M unit :=
  t <- this ;;
  assign {| config := config t; manager := manager t;
            transportChannel := transportChannel t; bus := bus t;
            interval := i |}.

(** [getManager()]. *)
Definition getManager : M StreamManager :=
  t <- this ;; ret (manager t).

(** Modelled from the spec: [StreamManager.subscribe]: "fails (returns false,
    does not throw) if the uid has no live stream, or if authorization exists
    for a matching pattern and the predicate returns false/rejects ... On
    success: adds channel to the index, adds channel to the stream's
    subscription set (idempotent if already subscribed), invokes onSubscribe
    exactly once, returns true.  skipAuthorization=true bypasses the
    predicate entirely but still requires a live local stream for uid";
    "empty channel name is invalid (reject at subscribe time)". *)
Definition sm_subscribe (p : SubscribeParams) : M bool :=
  m <- getManager ;;
  if String.eqb (sub_channel p) "" then ret false
  else if negb (has_stream m (sub_uid p)) then ret false
  else if negb (skipAuthorization p)
          && negb (verifyAccess m (sub_channel p) (sub_context p))
  then ret false
  else
    set_manager (index_subscribe (sub_uid p) (sub_channel p) m) ;;
    match onSubscribe p with
    | Some callback => callback (sub_uid p) (sub_channel p) (sub_context p)
    | None => ret tt
    end ;;
    ret true.

(** Modelled from the spec: [StreamManager.unsubscribe]: "removes the channel
    from both the stream's set and the index if present; invokes
    onUnsubscribe only if a removal actually occurred; returns whether it
    occurred". *)
Definition sm_unsubscribe (p : UnsubscribeParams) : M bool :=
  m <- getManager ;;
  if is_subscribed m (unsub_uid p) (unsub_channel p) then
    set_manager (index_unsubscribe (unsub_uid p) (unsub_channel p) m) ;;
    match onUnsubscribe p with
    | Some callback =>
        callback (unsub_uid p) (unsub_channel p) (unsub_context p)
    | None => ret tt
    end ;;
    ret true
  else ret false.

(** *** The class [Transmit] *)

(** The [senderUid] argument of [#broadcastLocally]: absent, one uid or an
    array of uids. *)
Inductive SenderUid : Type :=
| NoSender
| OneSender (uid : string)
| ManySenders (uids : list string).

(** [Array.isArray(senderUid) ? senderUid.includes(uid) : senderUid === uid]. *)
Definition is_sender (senderUid : SenderUid) (uid : string) : bool :=
  match senderUid with
  | ManySenders uids => existsb (fun u => String.eqb u uid) uids
  | OneSender u => String.eqb u uid
  | NoSender => false
  end.

(** [#subscribeLocally(params)], with [params] of the shape
    [{ uid, channel, context? }]: the spread sets [skipAuthorization: true],
    and the type of [params] leaves no [onSubscribe]. *)
Definition subscribeLocally (uid channel : string) (context : option Ctx)
  : M bool :=
  sm_subscribe {| sub_uid := uid; sub_channel := channel;
                  sub_context := context; skipAuthorization := true;
                  onSubscribe := None |}.

(** [subscribe(params)]: the spread keeps the caller's fields and sets
    [onSubscribe]. *)
Definition subscribe (params : SubscribeParams) : M bool :=
  sm_subscribe
    {| sub_uid := sub_uid params; sub_channel := sub_channel params;
       sub_context := sub_context params;
       skipAuthorization := skipAuthorization params;
       onSubscribe :=
         Some (fun uid channel context =>
                 emit (OnSubscribe uid channel context) ;;
                 bus_publish (MsgSubscribe channel uid)) |}.

(** [#unsubscribeLocally(params)], with [params] of the shape
    [{ uid, channel, context? }] and no [onUnsubscribe]. *)
Definition unsubscribeLocally (uid channel : string) (context : option Ctx)
  : M bool :=
  sm_unsubscribe {| unsub_uid := uid; unsub_channel := channel;
                    unsub_context := context; onUnsubscribe := None |}.

(** [unsubscribe(params)]: the spread keeps the caller's fields and sets
    [onUnsubscribe]. *)
Definition unsubscribe (params : UnsubscribeParams) : M bool :=
  sm_unsubscribe
    {| unsub_uid := unsub_uid params; unsub_channel := unsub_channel params;
       unsub_context := unsub_context params;
       onUnsubscribe :=
         Some (fun uid channel context =>
                 emit (OnUnsubscribe uid channel context) ;;
                 bus_publish (MsgUnsubscribe channel uid)) |}.

(** [#broadcastLocally(channel, payload, senderUid?)]. *)
Definition broadcastLocally (channel : string) (payload : Broadcastable)
  (senderUid : SenderUid) : M unit :=
  m <- getManager ;;
  for_each
    (fun subscriber =>
       if is_sender senderUid (getUid subscriber) then ret tt
       else writeMessage subscriber
              {| data_channel := channel; data_payload := payload |})
    (findByChannel m channel).

(** [broadcastExcept(channel, payload, senderUid)]. *)
Definition broadcastExcept (channel : string) (payload : Broadcastable)
  (senderUid : SenderUid) : M unit :=
  broadcastLocally channel payload senderUid.

(** [broadcast(channel, payload?)]. *)
Definition broadcast (channel : string) (payload : option Broadcastable)
  : M unit :=
  let payload :=
    match payload with
    | Some v => if truthy v then v else empty_object
    | None => empty_object
    end in
  bus_publish (MsgBroadcast channel payload) ;;
  broadcastLocally channel payload NoSender ;;
  emit (OnBroadcast channel payload).

(** [#ping()]. *)
Definition ping : M unit :=
  m <- getManager ;;
  for_each (fun entry => writeMessage (fst entry) ping_message)
           (getAllSubscribers m).

(** [shutdown()]. *)
Definition shutdown : M unit :=
  t <- this ;;
  match interval t with
  | Some tm => set_interval (Some (clearInterval tm))
  | None => ret tt
  end ;;
  bus_disconnect.

(** The handler given to [bus.subscribe] in the constructor: the tests
    [type === TransportMessageType.X] discriminate the union (see
    [message_type]); [void] drops the result of the local call. *)
Definition on_bus_message (message : TransmitMessage) : M unit :=
  match message with
  | MsgBroadcast channel payload =>
      broadcastLocally channel payload NoSender
  | MsgSubscribe channel uid =>
      subscribeLocally uid channel None ;; ret tt
  | MsgUnsubscribe channel uid =>
      unsubscribeLocally uid channel None ;; ret tt
  end.

(** One firing of the timer started by [setInterval(() => this.#ping(), ...)]:
    a cleared timer no longer fires. *)
Definition interval_fires : M unit :=
  t <- this ;;
  match interval t with
  | Some tm => if cleared tm then ret tt else ping
  | None => ret tt
  end.

(** ToBoolean of [config.pingInterval]. *)
Definition pingInterval_set (c : TransmitConfig) : option PingInterval :=
  match pingInterval c with
  | Some (PingNumber ms) => if Z.eqb ms 0 then None else Some (PingNumber ms)
  | Some (PingString d) =>
      if String.eqb d "" then None else Some (PingString d)
  | None => None
  end.

(** [new Transmit(config, transport?)]: the instance, or the exception the
    constructor throws, and the calls made while constructing.  The bus is
    subscribed to before the ping interval is read, so the subscription is
    made even when [string.milliseconds.parse] throws. *)
Definition new_Transmit (cfg : TransmitConfig) (tr : option Transport)
  : Completion Transmit * list Effect :=
  let the_bus :=
    match tr with
    | Some driver =>
        Some {| bus_transport := driver; retryQueue_enabled := true |}
    | None => None
    end in
  let the_channel :=
    match transport cfg with
    | Some tc =>
        match transport_channel tc with
        | Some c => c
        | None => "transmit::broadcast"
        end
    | None => "transmit::broadcast"
    end in
  let instance (i : option Timeout) :=
    {| config := cfg;
       manager := {| streams := []; securedChannels := [] |};
       transportChannel := the_channel;
       bus := the_bus;
       interval := i |} in
  (match pingInterval_set cfg with
   | Some (PingNumber ms) =>
       Returned (instance (Some {| delay := ms; cleared := false |}))
   | Some (PingString d) =>
       match milliseconds_parse d with
       | Some ms =>
           Returned (instance (Some {| delay := ms; cleared := false |}))
       | None => Thrown (InvalidDuration d)
       end
   | None => Returned (instance None)
   end,
   match the_bus with
   | Some _ => [BusSubscribe the_channel]
   | None => []
   end).

End Model.

Arguments Stream : clear implicits.
Arguments StreamManager : clear implicits.
Arguments AccessCallback : clear implicits.
Arguments LifecycleEvent : clear implicits.
Arguments Effect : clear implicits.
Arguments Transmit : clear implicits.
Arguments Outcome : clear implicits.
Arguments M : clear implicits.
Arguments SubscribeParams : clear implicits.
Arguments UnsubscribeParams : clear implicits.
Arguments result {Ctx A} o.
Arguments final {Ctx A} o.
Arguments effects {Ctx A} o.

(* ------------------------------------------------------------------ *)
(** ** Reading outcomes *)

Section Observations.

Context {Ctx : Type}.

(** The messages published to the bus, with their topic. *)
Fixpoint published (es : list (Effect Ctx)) : list (string * TransmitMessage) :=
  match es with
  | [] => []
  | BusPublish topic message :: es' => (topic, message) :: published es'
  | _ :: es' => published es'
  end.

(** The lifecycle events emitted. *)
Fixpoint emitted (es : list (Effect Ctx)) : list (LifecycleEvent Ctx) :=
  match es with
  | [] => []
  | Emit event :: es' => event :: emitted es'
  | _ :: es' => emitted es'
  end.

(** The messages written to streams, with the uid of the stream. *)
Fixpoint written (es : list (Effect Ctx)) : list (string * Message) :=
  match es with
  | [] => []
  | SinkWrite uid message :: es' => (uid, message) :: written es'
  | _ :: es' => written es'
  end.

(** The payload an effect carries to its receiver, when it carries one. *)
Definition carried_payload (e : Effect Ctx) : option Broadcastable :=
  match e with
  | BusPublish _ (MsgBroadcast _ payload) => Some payload
  | Emit (OnBroadcast _ payload) => Some payload
  | SinkWrite _ message => Some (data_payload message)
  | _ => None
  end.

(** One write of [message] per stream of [targets], in order. *)
Definition writes (message : Message) (targets : list (Stream Ctx))
  : list (Effect Ctx) :=
  map (fun s => SinkWrite (getUid s) message) targets.

Definition deliveries (message : Message) (targets : list (Stream Ctx))
  : list (string * Message) :=
  map (fun s => (getUid s, message)) targets.

(** The streams a fan-out with exclusion argument [senderUid] writes to. *)
Definition fanout_targets (senderUid : SenderUid) (l : list (Stream Ctx))
  : list (Stream Ctx) :=
  filter (fun s => negb (is_sender senderUid (getUid s))) l.

Definition all_open (l : list (Stream Ctx)) : bool :=
  forallb (fun s => sink_open (sink s)) l.

(** The streams of [l] up to the first one whose sink is broken. *)
Fixpoint reached (l : list (Stream Ctx)) : list (Stream Ctx) :=
  match l with
  | [] => []
  | s :: l' => if sink_open (sink s) then s :: reached l' else []
  end.

Definition first_broken (l : list (Stream Ctx)) : option (Stream Ctx) :=
  find (fun s => negb (sink_open (sink s))) l.

(** How a loop of writes of [message] over [targets] ends. *)
Definition fanout_outcome (message : Message) (targets : list (Stream Ctx))
  (t : Transmit Ctx) : Outcome Ctx unit :=
  {| result :=
       match first_broken targets with
       | None => Returned tt
       | Some s => Thrown (TransportWriteFailure (getUid s))
       end;
     final := t;
     effects := writes message (reached targets) |}.

(** Membership in the exclusion set denoted by a [senderUid] argument. *)
Definition excluded (senderUid : SenderUid) (uid : string) : Prop :=
  match senderUid with
  | NoSender => False
  | OneSender u => u = uid
  | ManySenders uids => In uid uids
  end.

(** The payload [broadcast] works with after its guard [if (!payload)]. *)
Definition effective_payload (payload : option Broadcastable) : Broadcastable :=
  match payload with
  | Some v => if truthy v then v else empty_object
  | None => empty_object
  end.

(** What [broadcast(channel, payload)] would do if it delivered the value
    [sent]: publish it when a bus is configured, write it to every stream
    indexed for the channel, emit one broadcast event. *)
Definition broadcast_delivers (channel : string) (sent : Broadcastable)
  (t : Transmit Ctx) (o : Outcome Ctx unit) : Prop :=
  published (effects o)
  = match bus t with
    | Some _ => [(transportChannel t, MsgBroadcast channel sent)]
    | None => []
    end
  /\ written (effects o)
     = deliveries {| data_channel := channel; data_payload := sent |}
                  (findByChannel (manager t) channel)
  /\ emitted (effects o) = [OnBroadcast channel sent].

(** A call that does nothing: it returns, makes no call on a collaborator
    and leaves the instance as it was. *)
Definition no_op (m : M Ctx unit) (t : Transmit Ctx) : Prop :=
  result (m t) = Returned tt /\ final (m t) = t /\ effects (m t) = [].

(** A fan-out in which every subscribed stream receives the message and
    nothing is thrown. *)
Definition best_effort (channel : string) (payload : Broadcastable)
  (t : Transmit Ctx) (o : Outcome Ctx unit) : Prop :=
  result o = Returned tt
  /\ forall s, In s (findByChannel (manager t) channel) ->
       sink_open (sink s) = true ->
       In (getUid s, {| data_channel := channel; data_payload := payload |})
          (written (effects o)).

(** The instance with its manager in state [m]. *)
Definition with_manager (m : StreamManager Ctx) (t : Transmit Ctx)
  : Transmit Ctx :=
  final (set_manager m t).

(** Whether the manager grants a subscription request. *)
Definition subscribe_accepts (p : SubscribeParams Ctx) (m : StreamManager Ctx)
  : bool :=
  negb (String.eqb (sub_channel p) "")
  && has_stream m (sub_uid p)
  && (skipAuthorization p || verifyAccess m (sub_channel p) (sub_context p)).

(** The calls made by the [onSubscribe] wiring of [subscribe]. *)
Definition subscribe_notifications (p : SubscribeParams Ctx) (t : Transmit Ctx)
  : list (Effect Ctx) :=
  Emit (OnSubscribe (sub_uid p) (sub_channel p) (sub_context p))
  :: match bus t with
     | Some _ =>
         [BusPublish (transportChannel t)
                     (MsgSubscribe (sub_channel p) (sub_uid p))]
     | None => []
     end.

(** The calls made by the [onUnsubscribe] wiring of [unsubscribe]. *)
Definition unsubscribe_notifications (q : UnsubscribeParams Ctx)
  (t : Transmit Ctx) : list (Effect Ctx) :=
  Emit (OnUnsubscribe (unsub_uid q) (unsub_channel q) (unsub_context q))
  :: match bus t with
     | Some _ =>
         [BusPublish (transportChannel t)
                     (MsgUnsubscribe (unsub_channel q) (unsub_uid q))]
     | None => []
     end.

End Observations.

(* ------------------------------------------------------------------ *)
(** ** Sample instances *)

(** A reader of durations that knows "30s" only. *)
Definition sample_parse (duration : string) : option Z :=
  if String.eqb duration "30s" then Some 30000%Z else None.

Definition sample_config : TransmitConfig :=
  {| pingInterval := Some (PingString "30s");
     transport := Some {| transport_channel := None |} |}.

Definition alice : Stream string :=
  {| getUid := "alice"; stream_context := "session-1"; sink := SinkOpen;
     subscriptions := ["news"; "chats/5/messages"] |}.

Definition bob : Stream string :=
  {| getUid := "bob"; stream_context := "session-2"; sink := SinkOpen;
     subscriptions := ["news"] |}.

Definition carol : Stream string :=
  {| getUid := "carol"; stream_context := "session-3"; sink := SinkOpen;
     subscriptions := [] |}.

(** A stream whose sink no longer accepts writes. *)
Definition mallory : Stream string :=
  {| getUid := "mallory"; stream_context := "session-4"; sink := SinkBroken;
     subscriptions := ["news"] |}.

(** An authorization entry that denies every subscription to a chat. *)
Definition sample_registry : list (string * AccessCallback string) :=
  [("chats/:id/messages", fun _ _ => false)].

Definition sample_manager : StreamManager string :=
  {| streams := [alice; bob; carol]; securedChannels := sample_registry |}.

(** The instance [new Transmit(sample_config, transport)] returns. *)
Definition sample_built (tr : option Transport) : Transmit string :=
  match fst (new_Transmit sample_parse sample_config tr) with
  | Returned t => t
  | Thrown _ =>
      {| config := sample_config;
         manager := {| streams := []; securedChannels := [] |};
         transportChannel := ""; bus := None; interval := None |}
  end.

(** An instance with a bus and a running keepalive timer. *)
Definition sample_instance : Transmit string :=
  with_manager sample_manager
    (sample_built (Some (transport_driver "memory"))).

(** The same instance without a bus. *)
Definition sample_local_instance : Transmit string :=
  with_manager sample_manager (sample_built None).

(** An instance whose first subscriber of "news" has a broken sink. *)
Definition sample_faulty_instance : Transmit string :=
  with_manager
    {| streams := [mallory; alice; bob]; securedChannels := [] |}
    (sample_built (Some (transport_driver "memory"))).

(* ------------------------------------------------------------------ *)
(** ** Connections and sequences of calls *)

Section Calls.

Context {Ctx : Type}.

Notation "x <- m ;; k" := (bind m (fun x => k))
  (at level 61, m at next level, right associativity).
Notation "m ;; k" := (bind m (fun _ => k))
  (at level 61, right associativity).

(** The parameters of [StreamManager.createStream] that matter here: the
    uid, the context, the sink the stream is piped to, and the callbacks. *)
Record CreateStreamParams : Type := {
  create_uid : string;
  create_context : Ctx;
  create_sink : Sink;
  onConnect : option (M Ctx unit);
  onDisconnect : option (M Ctx unit)
}.

(** Modelled from the spec: the disconnect observer that
    [StreamManager.createStream] installs for a stream it has registered
    ([stream_manager.ts] is not among the sources): it "invokes onDisconnect
    exactly once and then removes the Stream and all its channel-index
    entries"; once the stream is gone it does nothing. *)
Definition sm_stream_closed (p : CreateStreamParams) : M Ctx unit :=
  m <- getManager ;;
  if has_stream m (create_uid p) then
    match onDisconnect p with
    | Some callback => callback
    | None => ret tt
    end ;;
    m' <- getManager ;;
    set_manager
      {| streams :=
           filter (fun s => negb (String.eqb (getUid s) (create_uid p)))
                  (streams m');
         securedChannels := securedChannels m' |}
  else ret tt.

(** Modelled from the spec: [StreamManager.createStream]: it "fails if uid
    already has a live stream (policy: reject, signaling a DuplicateStream
    error; do not silently evict)", and a failed call "does not affect
    existing streams"; otherwise it "registers the Stream, invokes onConnect
    once registration succeeds, and installs a disconnect observer".  The
    call returns the stream together with that observer, which the close of
    the response runs; a rejected call installs none. *)
Definition sm_createStream (p : CreateStreamParams)
  : M Ctx (Stream Ctx * M Ctx unit) :=
  m <- getManager ;;
  if has_stream m (create_uid p) then throw (DuplicateStream (create_uid p))
  else
    let stream :=
      {| getUid := create_uid p; stream_context := create_context p;
         sink := create_sink p; subscriptions := [] |} in
    set_manager {| streams := streams m ++ [stream];
                   securedChannels := securedChannels m |} ;;
    match onConnect p with
    | Some callback => callback
    | None => ret tt
    end ;;
    ret (stream, sm_stream_closed p).

(** The parameters [createStream(params)] hands to the stream manager: the
    spread keeps the caller's fields and sets [onConnect] and
    [onDisconnect]. *)
Definition with_lifecycle (params : CreateStreamParams) : CreateStreamParams :=
  {| create_uid := create_uid params;
     create_context := create_context params;
     create_sink := create_sink params;
     onConnect :=
       Some (emit (OnConnect (create_uid params)
                             (Some (create_context params))));
     onDisconnect :=
       Some (emit (OnDisconnect (create_uid params)
                                (Some (create_context params)))) |}.

(** [createStream(params)]: the stream and the observer of its close. *)
Definition createStream (params : CreateStreamParams)
  : M Ctx (Stream Ctx * M Ctx unit) :=
  sm_createStream (with_lifecycle params).

(** The stream [createStream(params)] registers. *)
Definition new_stream (params : CreateStreamParams) : Stream Ctx :=
  {| getUid := create_uid params; stream_context := create_context params;
     sink := create_sink params; subscriptions := [] |}.

(** What the close of the response does in the state [t], for a call
    [createStream(params)] made in the state [t0]: it runs the observer the
    call installed, and nothing when the call was rejected. *)
Definition response_closes (params : CreateStreamParams)
  (t0 : Transmit Ctx) : M Ctx unit :=
  match result (createStream params t0) with
  | Returned (_, observer) => observer
  | Thrown _ => ret tt
  end.

(** What can happen to an instance once it is built: a call of one of its
    methods, a message delivered by the bus, a firing of its timer. *)
Inductive Call : Type :=
| CallSubscribe (params : SubscribeParams Ctx)
| CallUnsubscribe (params : UnsubscribeParams Ctx)
| CallBroadcast (channel : string) (payload : option Broadcastable)
| CallBroadcastExcept (channel : string) (payload : Broadcastable)
    (senderUid : SenderUid)
| CallShutdown
| BusDelivers (message : TransmitMessage)
| TimerFires.

Definition perform (c : Call) : M Ctx unit :=
  match c with
  | CallSubscribe params => subscribe params ;; ret tt
  | CallUnsubscribe params => unsubscribe params ;; ret tt
  | CallBroadcast channel payload => broadcast channel payload
  | CallBroadcastExcept channel payload senderUid =>
      broadcastExcept channel payload senderUid
  | CallShutdown => shutdown
  | BusDelivers message => on_bus_message message
  | TimerFires => interval_fires
  end.

(** The calls of [cs] one after the other, each from the state the one
    before left (an exception is the caller's to handle): the state reached
    and the calls made on the collaborators. *)
Fixpoint perform_all (cs : list Call) (t : Transmit Ctx)
  : Transmit Ctx * list (Effect Ctx) :=
  match cs with
  | [] => (t, [])
  | c :: cs' =>
      let o := perform c t in
      let rest := perform_all cs' (final o) in
      (fst rest, effects o ++ snd rest)
  end.

Definition is_shutdown (c : Call) : bool :=
  match c with CallShutdown => true | _ => false end.

(** The calls made on the bus. *)
Definition is_bus_call (e : Effect Ctx) : bool :=
  match e with
  | BusSubscribe _ | BusPublish _ _ | BusDisconnect => true
  | _ => false
  end.

Definition bus_calls (es : list (Effect Ctx)) : list (Effect Ctx) :=
  filter is_bus_call es.

(** What a method may ask of the bus of the instance [t]: a publish on the
    instance's channel or a disconnect, and only when there is a bus. *)
Definition bus_call_ok (t : Transmit Ctx) (e : Effect Ctx) : Prop :=
  match e with
  | BusPublish topic _ => topic = transportChannel t /\ bus t <> None
  | BusDisconnect => bus t <> None
  | BusSubscribe _ => False
  | _ => True
  end.

(** The timer exists and has not been cleared. *)
Definition timer_running (t : Transmit Ctx) : bool :=
  match interval t with
  | Some tm => negb (cleared tm)
  | None => false
  end.

(** Whether [shutdown] is among the calls. *)
Fixpoint has_shutdown (cs : list Call) : bool :=
  match cs with
  | [] => false
  | c :: cs' => is_shutdown c || has_shutdown cs'
  end.

(** The fields a call may not touch, and the timer, which only [shutdown]
    touches. *)
Definition frame (c : Call) (t t' : Transmit Ctx) : Prop :=
  config t' = config t
  /\ transportChannel t' = transportChannel t
  /\ bus t' = bus t
  /\ interval t'
     = if is_shutdown c then option_map clearInterval (interval t)
       else interval t.

(** ToBoolean of [config.pingInterval], spelled out. *)
Definition ping_configured (cfg : TransmitConfig) : Prop :=
  (exists ms, pingInterval cfg = Some (PingNumber ms) /\ ms <> 0%Z)
  \/ (exists d, pingInterval cfg = Some (PingString d) /\ d <> "").

(** [config.transport?.channel ?? 'transmit::broadcast']. *)
Definition configured_channel (cfg : TransmitConfig) : string :=
  match transport cfg with
  | Some tc =>
      match transport_channel tc with
      | Some c => c
      | None => "transmit::broadcast"
      end
  | None => "transmit::broadcast"
  end.

End Calls.

Arguments CreateStreamParams : clear implicits.
Arguments Call : clear implicits.

(** dave connects to the sample instance. *)
Definition dave_connects : CreateStreamParams string :=
  {| create_uid := "dave"; create_context := "session-5";
     create_sink := SinkOpen; onConnect := None; onDisconnect := None |}.

(** alice connects a second time. *)
Definition alice_reconnects : CreateStreamParams string :=
  {| create_uid := "alice"; create_context := "session-6";
     create_sink := SinkOpen; onConnect := None; onDisconnect := None |}.

(** A second instance on the same bus, with other clients. *)
Definition erin : Stream string :=
  {| getUid := "erin"; stream_context := "session-7"; sink := SinkOpen;
     subscriptions := ["news"] |}.

Definition sample_remote_instance : Transmit string :=
  with_manager {| streams := [erin]; securedChannels := [] |}
    (sample_built (Some (transport_driver "memory"))).

(** The sample instance once carol has subscribed to the channel name of the
    keepalive. *)
Definition sample_ping_listener_instance : Transmit string :=
  final (subscribe {| sub_uid := "carol"; sub_channel := "$$transmit/ping";
                      sub_context := Some "session-3";
                      skipAuthorization := false; onSubscribe := None |}
                   sample_instance).

(** A configuration whose ping interval [sample_parse] cannot read. *)
Definition sample_unreadable_config : TransmitConfig :=
  {| pingInterval := Some (PingString "soon"); transport := None |}.

(** A sample run: subscriptions, broadcasts, a bus message, a shutdown and
    timer firings. *)
Definition sample_calls : list (Call string) :=
  [ CallSubscribe {| sub_uid := "bob"; sub_channel := "sports";
                     sub_context := Some "session-2";
                     skipAuthorization := false; onSubscribe := None |};
    CallBroadcast "news" (Some (BString "hi"));
    TimerFires;
    BusDelivers (MsgUnsubscribe "news" "alice");
    CallShutdown;
    CallUnsubscribe {| unsub_uid := "bob"; unsub_channel := "sports";
                       unsub_context := None; onUnsubscribe := None |};
    CallBroadcastExcept "news" (BNumber 0) (OneSender "bob");
    TimerFires ].

(* ------------------------------------------------------------------ *)
(** ** Properties *)

Section Proofs.

Context {Ctx : Type}.

Implicit Types (t : Transmit Ctx) (l : list (Stream Ctx)) (s : Stream Ctx).
Implicit Types (es : list (Effect Ctx)) (message : Message).

Ltac run :=
  unfold getManager, set_manager, set_interval, bus_publish,
    bus_disconnect, emit, tell, throw, assign, this, ret, bind in *;
  simpl in *.

(** *** Reading lists of effects *)

Lemma published_app es es' :
  published (es ++ es') = published es ++ published es'.
Proof.
  induction es as [|e es IH]; simpl; [reflexivity|].
  destruct e; simpl; rewrite IH; reflexivity.
Qed.

Lemma emitted_app es es' : emitted (es ++ es') = emitted es ++ emitted es'.
Proof.
  induction es as [|e es IH]; simpl; [reflexivity|].
  destruct e; simpl; rewrite IH; reflexivity.
Qed.

Lemma written_app es es' : written (es ++ es') = written es ++ written es'.
Proof.
  induction es as [|e es IH]; simpl; [reflexivity|].
  destruct e; simpl; rewrite IH; reflexivity.
Qed.

Lemma published_writes message l : published (writes message l) = [].
Proof. induction l; simpl; auto. Qed.

Lemma emitted_writes message l : emitted (writes message l) = [].
Proof. induction l; simpl; auto. Qed.

Lemma written_writes message l :
  written (writes message l) = deliveries message l.
Proof. induction l; simpl; [reflexivity | f_equal; assumption]. Qed.

(** *** Sequencing *)

Lemma bind_returned {A B : Type} (m : M Ctx A) (k : A -> M Ctx B) t a t' es :
  m t = {| result := Returned a; final := t'; effects := es |} ->
  bind m k t
  = {| result := result (k a t'); final := final (k a t');
       effects := es ++ effects (k a t') |}.
Proof. intros H. unfold bind. rewrite H. reflexivity. Qed.

Lemma bind_thrown {A B : Type} (m : M Ctx A) (k : A -> M Ctx B) t e t' es :
  m t = {| result := Thrown e; final := t'; effects := es |} ->
  bind m k t = {| result := Thrown e; final := t'; effects := es |}.
Proof. intros H. unfold bind. rewrite H. reflexivity. Qed.

Lemma bind_pure {A B : Type} (m : M Ctx A) (k : A -> M Ctx B) t a t' :
  m t = {| result := Returned a; final := t'; effects := [] |} ->
  bind m k t = k a t'.
Proof.
  intros H. unfold bind. rewrite H. cbn [result final effects app].
  destruct (k a t'). reflexivity.
Qed.

Lemma reached_no_broken l : first_broken l = None -> reached l = l.
Proof.
  unfold first_broken. induction l as [|x l IH]; simpl; [reflexivity|].
  destruct (sink_open (sink x)); simpl; [|discriminate].
  intros H. rewrite (IH H). reflexivity.
Qed.

(** *** Loops of writes *)

Lemma reached_all_open l : all_open l = true -> reached l = l.
Proof.
  induction l as [|s l IH]; simpl; [reflexivity|].
  intros H. apply andb_prop in H. destruct H as [Hs Hl].
  rewrite Hs, (IH Hl). reflexivity.
Qed.

Lemma first_broken_all_open l : all_open l = true -> first_broken l = None.
Proof.
  induction l as [|s l IH]; simpl; [reflexivity|].
  intros H. apply andb_prop in H. destruct H as [Hs Hl].
  rewrite Hs. simpl. exact (IH Hl).
Qed.

Lemma reached_stops pre s post :
  all_open pre = true -> sink_open (sink s) = false ->
  reached (pre ++ s :: post) = pre
  /\ first_broken (pre ++ s :: post) = Some s.
Proof.
  intros Hpre Hs. induction pre as [|x pre IH]; simpl.
  - rewrite Hs. split; reflexivity.
  - simpl in Hpre. apply andb_prop in Hpre. destruct Hpre as [Hx Hpre].
    rewrite Hx. simpl. destruct (IH Hpre) as [IH1 IH2].
    rewrite IH1, IH2. split; reflexivity.
Qed.

Lemma fanout_outcome_all_open message l t :
  all_open l = true ->
  fanout_outcome message l t
  = {| result := Returned tt; final := t; effects := writes message l |}.
Proof.
  intros H. unfold fanout_outcome.
  rewrite (first_broken_all_open l H), (reached_all_open l H). reflexivity.
Qed.

Lemma fanout_targets_no_sender l : fanout_targets NoSender l = l.
Proof.
  unfold fanout_targets.
  induction l as [|s l IH]; simpl; [reflexivity | f_equal; exact IH].
Qed.

(** The loop of [#broadcastLocally] over any list of subscribers. *)
Lemma for_each_fanout senderUid message l t :
  for_each
    (fun subscriber =>
       if is_sender senderUid (getUid subscriber) then ret tt
       else writeMessage subscriber message) l t
  = fanout_outcome message (fanout_targets senderUid l) t.
Proof.
  revert t. induction l as [|s l IH]; intros t; [reflexivity|].
  cbn [for_each]. unfold bind at 1. rewrite IH.
  unfold fanout_targets, fanout_outcome, first_broken, writeMessage.
  cbn [filter].
  destruct (is_sender senderUid (getUid s)); cbn [negb]; [reflexivity|].
  cbn [find reached].
  destruct (sink_open (sink s)); reflexivity.
Qed.

Lemma broadcastLocally_run channel payload senderUid t :
  broadcastLocally channel payload senderUid t
  = fanout_outcome {| data_channel := channel; data_payload := payload |}
      (fanout_targets senderUid (findByChannel (manager t) channel)) t.
Proof.
  unfold broadcastLocally. run. rewrite for_each_fanout. reflexivity.
Qed.

Lemma for_each_ping (entries : list (Stream Ctx * list string)) t :
  for_each (fun entry => writeMessage (fst entry) ping_message) entries t
  = fanout_outcome ping_message (map fst entries) t.
Proof.
  revert t. induction entries as [|e entries IH]; intros t; [reflexivity|].
  cbn [for_each]. unfold bind at 1. rewrite IH.
  unfold fanout_outcome, first_broken, writeMessage.
  cbn [map find reached].
  destruct (sink_open (sink (fst e))); reflexivity.
Qed.

Lemma ping_run t :
  ping t = fanout_outcome ping_message
             (map fst (getAllSubscribers (manager t))) t.
Proof. unfold ping. run. rewrite for_each_ping. reflexivity. Qed.

Lemma is_sender_excluded senderUid uid :
  is_sender senderUid uid = true <-> excluded senderUid uid.
Proof.
  destruct senderUid as [|u|uids]; simpl.
  - split; [discriminate | contradiction].
  - apply String.eqb_eq.
  - rewrite existsb_exists. split.
    + intros [x [Hin Heq]]. apply String.eqb_eq in Heq. subst. exact Hin.
    + intros Hin. exists uid. split; [exact Hin | apply String.eqb_refl].
Qed.

Lemma in_deliveries uid message m l :
  In (uid, m) (deliveries message l) ->
  m = message /\ exists s, In s l /\ getUid s = uid.
Proof.
  unfold deliveries. rewrite in_map_iff. intros [s [Heq Hin]].
  inversion Heq; subst. split; [reflexivity | exists s; auto].
Qed.

Lemma reached_incl l s : In s (reached l) -> In s l.
Proof.
  induction l as [|x l IH]; simpl; [auto|].
  destruct (sink_open (sink x)); simpl; [|contradiction].
  intros [H|H]; auto.
Qed.

(** How [broadcast] runs, whatever the sinks do. *)
Lemma broadcast_run channel payload t :
  let sent := effective_payload payload in
  let message := {| data_channel := channel; data_payload := sent |} in
  let subscribers := findByChannel (manager t) channel in
  let publish :=
    match bus t with
    | Some _ => [BusPublish (transportChannel t) (MsgBroadcast channel sent)]
    | None => []
    end in
  broadcast channel payload t
  = match first_broken subscribers with
    | None =>
        {| result := Returned tt; final := t;
           effects := publish ++ writes message subscribers
                      ++ [Emit (OnBroadcast channel sent)] |}
    | Some s =>
        {| result := Thrown (TransportWriteFailure (getUid s)); final := t;
           effects := publish ++ writes message (reached subscribers) |}
    end.
Proof.
  intros sent message subscribers publish.
  assert (Hpub : bus_publish (MsgBroadcast channel sent) t
                 = {| result := Returned tt; final := t; effects := publish |}).
  { unfold publish, bus_publish, bind, this, tell, ret. simpl.
    destruct (bus t); reflexivity. }
  assert (Hloc := broadcastLocally_run channel sent NoSender t).
  rewrite fanout_targets_no_sender in Hloc. fold message subscribers in Hloc.
  unfold fanout_outcome in Hloc.
  unfold broadcast. fold (effective_payload payload). fold sent.
  rewrite (bind_returned _ _ _ _ _ _ Hpub).
  destruct (first_broken subscribers) as [s|] eqn:Hfb.
  - rewrite (bind_thrown _ _ _ _ _ _ Hloc). reflexivity.
  - rewrite (reached_no_broken _ Hfb) in Hloc.
    rewrite (bind_returned _ _ _ _ _ _ Hloc). reflexivity.
Qed.

(** *** Messages *)

(** X15.  The [type] field tells the three shapes of [TransmitMessage]
    apart: the tags of [TransportMessageType] are pairwise distinct, so each
    of the handler's tests [type === TransportMessageType.X] holds for the
    messages of one shape and for no other. *)
Lemma message_type_discriminates (message : TransmitMessage) :
  (message_type message = TransportMessageType.Broadcast
   <-> exists channel payload, message = MsgBroadcast channel payload)
  /\ (message_type message = TransportMessageType.Subscribe
      <-> exists channel uid, message = MsgSubscribe channel uid)
  /\ (message_type message = TransportMessageType.Unsubscribe
      <-> exists channel uid, message = MsgUnsubscribe channel uid).
Proof.
  destruct message as [c p|c u|c u]; cbn;
    repeat split; intros H; try discriminate; eauto;
    destruct H as (? & ? & H); discriminate.
Qed.

(** *** Broadcasts *)

(** C1.  A Broadcast message received from the bus is fanned out locally and
    nothing else happens: the handler's calls are the writes of
    [{ data: { channel, payload } }] to the streams indexed for the message's
    channel, in index order (up to a sink that throws, if there is one); it
    publishes nothing to the bus, emits no lifecycle event (so no
    'broadcast' event) and leaves the instance as it was.  When no sink
    throws, every stream indexed for the channel is written. *)
Theorem bus_broadcast_is_local_only (channel : string)
  (payload : Broadcastable) t :
  let o := on_bus_message (MsgBroadcast channel payload) t in
  let message := {| data_channel := channel; data_payload := payload |} in
  let subscribers := findByChannel (manager t) channel in
  effects o = writes message (reached subscribers)
  /\ published (effects o) = []
  /\ emitted (effects o) = []
  /\ final o = t
  /\ (all_open subscribers = true ->
      result o = Returned tt
      /\ written (effects o) = deliveries message subscribers).
Proof.
  intros o message subscribers.
  assert (Ho : o = fanout_outcome message subscribers t).
  { unfold o, on_bus_message. rewrite broadcastLocally_run.
    rewrite fanout_targets_no_sender. reflexivity. }
  rewrite Ho. unfold fanout_outcome. cbn [effects final result].
  repeat split.
  - apply published_writes.
  - apply emitted_writes.
  - rewrite (first_broken_all_open _ H). reflexivity.
  - rewrite (reached_all_open _ H). apply written_writes.
Qed.

(** C2 (amended).  [broadcast(channel, payload)] works with the effective
    payload: the argument when it is truthy, [{}] when it is absent or
    falsy.  It publishes a Broadcast message with the channel and that
    payload to the bus exactly when a bus is configured; and, when no sink
    write throws, it writes [{ data: { channel, payload } }] to every stream
    indexed for the channel and emits exactly one 'broadcast' event, with or
    without a bus, returning normally and leaving the instance as it was.  A
    truthy argument is delivered as it is. *)
Theorem broadcast_publishes_fans_out_and_emits (channel : string)
  (payload : option Broadcastable) t :
  let sent := effective_payload payload in
  let o := broadcast channel payload t in
  (forall v, payload = Some v -> truthy v = true -> sent = v)
  /\ published (effects o)
     = match bus t with
       | Some _ => [(transportChannel t, MsgBroadcast channel sent)]
       | None => []
       end
  /\ (all_open (findByChannel (manager t) channel) = true ->
      result o = Returned tt /\ final o = t
      /\ broadcast_delivers channel sent t o).
Proof.
  intros sent o. pose proof (broadcast_run channel payload t) as Hrun.
  cbv zeta in Hrun. fold sent in Hrun. fold o in Hrun.
  split; [|split].
  - intros v -> Hv. unfold sent. simpl. rewrite Hv. reflexivity.
  - rewrite Hrun.
    destruct (first_broken (findByChannel (manager t) channel));
      cbn [effects]; rewrite !published_app, published_writes;
      destruct (bus t); reflexivity.
  - intros Hopen. rewrite (first_broken_all_open _ Hopen) in Hrun.
    rewrite Hrun. cbn [result final effects].
    split; [reflexivity|]. split; [reflexivity|].
    unfold broadcast_delivers. cbn [effects].
    rewrite !published_app, !written_app, !emitted_app.
    rewrite published_writes, written_writes, emitted_writes.
    destruct (bus t); simpl; rewrite ?app_nil_r; auto.
Qed.

(** C3 (amended).  [broadcastExcept(C, payload, excluded)], with one uid or a
    list of uids, writes to the streams indexed for C whose uid is not in
    the exclusion set, in index order up to the first sink write that
    throws, if there is one: no stream whose uid is in the exclusion set is
    written, subscribed to C or not; and, when no sink write throws, the
    streams written are exactly the streams indexed for C whose uid is not
    in the exclusion set, each receiving
    [{ data: { channel: C, payload } }]. *)
Theorem broadcastExcept_skips_excluded (channel : string)
  (payload : Broadcastable) (senderUid : SenderUid) t :
  let o := broadcastExcept channel payload senderUid t in
  let message := {| data_channel := channel; data_payload := payload |} in
  let subscribers := findByChannel (manager t) channel in
  effects o = writes message (reached (fanout_targets senderUid subscribers))
  /\ (forall uid m,
        excluded senderUid uid -> ~ In (uid, m) (written (effects o)))
  /\ (all_open (fanout_targets senderUid subscribers) = true ->
      result o = Returned tt
      /\ written (effects o)
         = deliveries message (fanout_targets senderUid subscribers)
      /\ (forall s, In s subscribers -> ~ excluded senderUid (getUid s) ->
                    In (getUid s, message) (written (effects o)))).
Proof.
  intros o message subscribers.
  assert (Ho : o = fanout_outcome message
                     (fanout_targets senderUid subscribers) t).
  { unfold o, broadcastExcept. apply broadcastLocally_run. }
  rewrite Ho. unfold fanout_outcome. cbn [effects result].
  split; [reflexivity|]. split.
  - intros uid m Hex Hin. rewrite written_writes in Hin.
    apply in_deliveries in Hin. destruct Hin as [_ [s [Hs Huid]]].
    apply reached_incl in Hs. unfold fanout_targets in Hs.
    apply filter_In in Hs. destruct Hs as [_ Hs].
    apply is_sender_excluded in Hex. rewrite Huid, Hex in Hs. discriminate.
  - intros Hopen.
    rewrite (first_broken_all_open _ Hopen), (reached_all_open _ Hopen).
    rewrite written_writes. repeat split.
    intros s Hin Hex. unfold deliveries. apply in_map_iff. exists s.
    split; [reflexivity|]. unfold fanout_targets. apply filter_In.
    split; [exact Hin|].
    destruct (is_sender senderUid (getUid s)) eqn:E; [|reflexivity].
    apply is_sender_excluded in E. contradiction.
Qed.

(** C8 (amended).  The fan-out loop has no per-stream error handling.  It
    writes to the subscribed, non-excluded streams in index order; when no
    sink write throws, each of them receives the message and the fan-out
    returns.  A write that throws leaves the loop: the streams before it have
    been written, the streams after it are not, and the exception reaches the
    caller of [broadcastExcept], of the bus handler and of [broadcast], which
    then throws before it emits its 'broadcast' event. *)
Theorem fanout_has_no_per_stream_catch (channel : string)
  (payload : Broadcastable) (senderUid : SenderUid) t :
  let message := {| data_channel := channel; data_payload := payload |} in
  let subscribers := findByChannel (manager t) channel in
  let targets := fanout_targets senderUid subscribers in
  let o := broadcastLocally channel payload senderUid t in
  (all_open targets = true ->
   result o = Returned tt /\ written (effects o) = deliveries message targets)
  /\ (forall pre s post,
        targets = pre ++ s :: post ->
        all_open pre = true -> sink_open (sink s) = false ->
        result o = Thrown (TransportWriteFailure (getUid s))
        /\ written (effects o) = deliveries message pre)
  /\ broadcastExcept channel payload senderUid t = o
  /\ on_bus_message (MsgBroadcast channel payload) t
     = broadcastLocally channel payload NoSender t
  /\ (forall pre s post,
        subscribers = pre ++ s :: post ->
        all_open pre = true -> sink_open (sink s) = false ->
        let b := broadcast channel (Some payload) t in
        result b = Thrown (TransportWriteFailure (getUid s))
        /\ written (effects b)
           = deliveries {| data_channel := channel;
                           data_payload := effective_payload (Some payload) |}
                        pre
        /\ emitted (effects b) = []).
Proof.
  intros message subscribers targets o.
  assert (Ho : o = fanout_outcome message targets t)
    by apply broadcastLocally_run.
  split; [|split; [|split; [|split]]].
  - intros Hopen. rewrite Ho, (fanout_outcome_all_open _ _ _ Hopen).
    cbn [result effects]. split; [reflexivity | apply written_writes].
  - intros pre s post Heq Hpre Hs. rewrite Ho. unfold fanout_outcome.
    cbn [result effects]. rewrite Heq.
    destruct (reached_stops pre s post Hpre Hs) as [Hr Hf].
    rewrite Hr, Hf. split; [reflexivity | apply written_writes].
  - reflexivity.
  - reflexivity.
  - intros pre s post Heq Hpre Hs b.
    pose proof (broadcast_run channel (Some payload) t) as Hrun.
    cbv zeta in Hrun. fold subscribers in Hrun. fold b in Hrun.
    destruct (reached_stops pre s post Hpre Hs) as [Hr Hf].
    rewrite Heq, Hr, Hf in Hrun. rewrite Hrun. cbn [result effects].
    rewrite written_app, emitted_app, written_writes, emitted_writes.
    destruct (bus t); simpl; auto.
Qed.

(** C9.  A falsy payload argument of [broadcast] (absent or undefined, null,
    0, the empty string, false) is replaced by [{}].  The call is
    [broadcast(channel, {})]: the message it publishes to the bus, when there
    is a bus, is the Broadcast message of the channel with payload [{}]; the
    messages it writes to the local subscribers are
    [{ data: { channel, payload: {} } }]; the 'broadcast' event it emits
    carries [{}]; and the value passed in is carried nowhere. *)
Theorem broadcast_replaces_falsy_payload (channel : string)
  (payload : option Broadcastable) t :
  truthy_arg payload = false ->
  let o := broadcast channel payload t in
  let message := {| data_channel := channel; data_payload := empty_object |} in
  let subscribers := findByChannel (manager t) channel in
  o = broadcast channel (Some empty_object) t
  /\ published (effects o)
     = match bus t with
       | Some _ => [(transportChannel t, MsgBroadcast channel empty_object)]
       | None => []
       end
  /\ written (effects o) = deliveries message (reached subscribers)
  /\ emitted (effects o)
     = match first_broken subscribers with
       | None => [OnBroadcast channel empty_object]
       | Some _ => []
       end
  /\ (all_open subscribers = true ->
      result o = Returned tt
      /\ broadcast_delivers channel empty_object t o)
  /\ Forall (fun e => carried_payload e = Some empty_object) (effects o)
  /\ (forall v, payload = Some v ->
       Forall (fun e => carried_payload e <> Some v) (effects o)).
Proof.
  intros Hfalsy o message subscribers.
  assert (Hsent : effective_payload payload = empty_object).
  { destruct payload as [v|]; simpl in *; [rewrite Hfalsy|]; reflexivity. }
  pose proof (broadcast_run channel payload t) as Hrun.
  cbv zeta in Hrun. rewrite Hsent in Hrun.
  fold o message subscribers in Hrun.
  assert (Hexact :
    published (effects o)
    = match bus t with
      | Some _ => [(transportChannel t, MsgBroadcast channel empty_object)]
      | None => []
      end
    /\ written (effects o) = deliveries message (reached subscribers)
    /\ emitted (effects o)
       = match first_broken subscribers with
         | None => [OnBroadcast channel empty_object]
         | Some _ => []
         end).
  { rewrite Hrun.
    destruct (first_broken subscribers) eqn:Hfb; cbn [effects];
      rewrite ?published_app, ?written_app, ?emitted_app,
        ?published_writes, ?written_writes, ?emitted_writes;
      rewrite ?(reached_no_broken _ Hfb);
      destruct (bus t); cbn; rewrite ?app_nil_r; repeat split. }
  destruct Hexact as (Hp & Hw & He).
  assert (Hall : Forall (fun e => carried_payload e = Some empty_object)
                        (effects o)).
  { rewrite Hrun.
    assert (Hwr : forall l,
      Forall (fun e : Effect Ctx => carried_payload e = Some empty_object)
             (writes message l)).
    { induction l; simpl; constructor; auto. }
    destruct (first_broken subscribers);
      cbn [effects]; repeat (apply Forall_app; split); auto;
      destruct (bus t); repeat constructor. }
  split; [|split; [exact Hp | split; [exact Hw | split; [exact He|]]]].
  - unfold o, broadcast. fold (effective_payload payload).
    rewrite Hsent. reflexivity.
  - split; [|split; [exact Hall|]].
    + intros Hopen. rewrite (first_broken_all_open _ Hopen) in Hrun, He.
      rewrite (reached_all_open _ Hopen) in Hw.
      split; [rewrite Hrun; reflexivity|].
      unfold broadcast_delivers. auto.
    + intros v -> . eapply Forall_impl; [|exact Hall].
      intros e He' Hv. rewrite He' in Hv. inversion Hv; subst.
      simpl in Hfalsy. discriminate.
Qed.

(** *** Keepalive *)

(** C6 (amended).  While the keepalive timer runs (a ping interval was
    configured and the timer has not been cleared), a firing is one run of
    [#ping]: it writes
    [{ data: { channel: '$$transmit/ping', payload: {} } }] to the live
    streams in registry order, whatever their subscriptions, up to the first
    sink write that throws, if there is one, and so to every live stream
    when no sink write throws; it emits no lifecycle event, publishes
    nothing to the bus and leaves the instance as it was. *)
Theorem keepalive_ping_reaches_every_stream t (tm : Timeout) :
  interval t = Some tm -> cleared tm = false ->
  let o := interval_fires t in
  let live := map fst (getAllSubscribers (manager t)) in
  data_channel ping_message = "$$transmit/ping"
  /\ data_payload ping_message = empty_object
  /\ effects o = writes ping_message (reached live)
  /\ emitted (effects o) = []
  /\ published (effects o) = []
  /\ final o = t
  /\ live = streams (manager t)
  /\ (all_open live = true ->
      result o = Returned tt
      /\ written (effects o) = deliveries ping_message live).
Proof.
  intros Hint Hrun o live.
  assert (Ho : o = fanout_outcome ping_message live t).
  { unfold o, interval_fires, bind, this. cbn [result final effects].
    rewrite Hint, Hrun. rewrite ping_run. reflexivity. }
  rewrite Ho. unfold fanout_outcome. cbn [effects final result].
  repeat split.
  - apply emitted_writes.
  - apply published_writes.
  - unfold live, getAllSubscribers. rewrite map_map. apply map_id.
  - rewrite (first_broken_all_open _ H). reflexivity.
  - rewrite (reached_all_open _ H). apply written_writes.
Qed.

(** *** Subscriptions *)

Lemma sm_subscribe_run (p : SubscribeParams Ctx) t :
  sm_subscribe p t
  = if subscribe_accepts p (manager t)
    then
      let t' :=
        with_manager (index_subscribe (sub_uid p) (sub_channel p) (manager t))
                     t in
      match onSubscribe p with
      | Some callback =>
          bind (callback (sub_uid p) (sub_channel p) (sub_context p))
               (fun _ => ret true) t'
      | None => ret true t'
      end
    else ret false t.
Proof.
  unfold sm_subscribe, subscribe_accepts, with_manager.
  rewrite (bind_pure getManager _ t (manager t) t eq_refl).
  destruct (String.eqb (sub_channel p) ""); cbn [negb andb]; [reflexivity|].
  destruct (has_stream (manager t) (sub_uid p)); cbn [negb andb];
    [|reflexivity].
  destruct (skipAuthorization p); cbn [negb andb orb].
  - rewrite (bind_pure (set_manager _) _ t tt _ eq_refl).
    destruct (onSubscribe p); [reflexivity|].
    reflexivity.
  - destruct (verifyAccess (manager t) (sub_channel p) (sub_context p));
      cbn [negb]; [|reflexivity].
    rewrite (bind_pure (set_manager _) _ t tt _ eq_refl).
    destruct (onSubscribe p); [reflexivity|].
    reflexivity.
Qed.

Lemma sm_unsubscribe_run (q : UnsubscribeParams Ctx) t :
  sm_unsubscribe q t
  = if is_subscribed (manager t) (unsub_uid q) (unsub_channel q)
    then
      let t' :=
        with_manager
          (index_unsubscribe (unsub_uid q) (unsub_channel q) (manager t)) t in
      match onUnsubscribe q with
      | Some callback =>
          bind (callback (unsub_uid q) (unsub_channel q) (unsub_context q))
               (fun _ => ret true) t'
      | None => ret true t'
      end
    else ret false t.
Proof.
  unfold sm_unsubscribe, with_manager.
  rewrite (bind_pure getManager _ t (manager t) t eq_refl).
  destruct (is_subscribed (manager t) (unsub_uid q) (unsub_channel q));
    [|reflexivity].
  rewrite (bind_pure (set_manager _) _ t tt _ eq_refl).
  destruct (onUnsubscribe q); [reflexivity|].
  reflexivity.
Qed.

Lemma subscribeLocally_run (uid channel : string) (context : option Ctx) t :
  subscribeLocally uid channel context t
  = if negb (String.eqb channel "") && has_stream (manager t) uid
    then ret true (with_manager (index_subscribe uid channel (manager t)) t)
    else ret false t.
Proof.
  unfold subscribeLocally. rewrite sm_subscribe_run.
  unfold subscribe_accepts.
  cbn [sub_uid sub_channel sub_context skipAuthorization onSubscribe orb].
  rewrite andb_true_r. reflexivity.
Qed.

(** C4.  A Subscribe or Unsubscribe message received from the bus is applied
    locally for the uid and channel it carries.  The Subscribe is passed to
    the stream manager with [skipAuthorization: true] and no callback: it is
    granted exactly when the channel name is not empty and the uid has a live
    stream here, whatever the authorization registry holds, and then the uid
    is indexed for the channel.  The Unsubscribe is passed to the stream
    manager's unsubscribe as it is: the uid leaves the channel when it was
    subscribed. *)
Theorem bus_subscription_replay_skips_authorization (channel uid : string) t :
  let m := manager t in
  let granted := negb (String.eqb channel "") && has_stream m uid in
  subscribeLocally uid channel None t
  = sm_subscribe {| sub_uid := uid; sub_channel := channel;
                    sub_context := None; skipAuthorization := true;
                    onSubscribe := None |} t
  /\ result (subscribeLocally uid channel None t) = Returned granted
  /\ (forall registry,
        result (subscribeLocally uid channel None
                  (with_manager {| streams := streams m;
                                   securedChannels := registry |} t))
        = Returned granted)
  /\ final (on_bus_message (MsgSubscribe channel uid) t)
     = (if granted then with_manager (index_subscribe uid channel m) t
        else t)
  /\ unsubscribeLocally uid channel None t
     = sm_unsubscribe {| unsub_uid := uid; unsub_channel := channel;
                         unsub_context := None; onUnsubscribe := None |} t
  /\ result (unsubscribeLocally uid channel None t)
     = Returned (is_subscribed m uid channel)
  /\ final (on_bus_message (MsgUnsubscribe channel uid) t)
     = (if is_subscribed m uid channel
        then with_manager (index_unsubscribe uid channel m) t
        else t).
Proof.
  intros m granted.
  assert (Hg : negb (String.eqb channel "") && has_stream (manager t) uid
               = granted) by reflexivity.
  clearbody granted.
  assert (Hs := subscribeLocally_run uid channel None t).
  rewrite Hg in Hs. fold m in Hs.
  assert (Hu : unsubscribeLocally uid channel None t
               = if is_subscribed m uid channel
                 then ret true
                        (with_manager (index_unsubscribe uid channel m) t)
                 else ret false t).
  { unfold unsubscribeLocally. rewrite sm_unsubscribe_run. reflexivity. }
  split; [reflexivity|]. split; [rewrite Hs; destruct granted; reflexivity|].
  split.
  { intros registry. rewrite subscribeLocally_run.
    change (has_stream
              (manager
                 (with_manager
                    {| streams := streams m; securedChannels := registry |} t))
              uid)
      with (has_stream (manager t) uid).
    rewrite Hg. destruct granted; reflexivity. }
  split.
  { unfold on_bus_message, bind. rewrite Hs. destruct granted; reflexivity. }
  split; [reflexivity|].
  split; [rewrite Hu; destruct (is_subscribed m uid channel); reflexivity|].
  unfold on_bus_message, bind. rewrite Hu.
  destruct (is_subscribed m uid channel); reflexivity.
Qed.

(** C10.  Applying a Subscribe or Unsubscribe message received from the bus
    makes no call on any collaborator: no 'subscribe' or 'unsubscribe'
    lifecycle event is emitted and nothing is published to the bus; the
    handler returns normally. *)
Theorem bus_subscription_replay_is_silent (channel uid : string) t :
  let o := on_bus_message (MsgSubscribe channel uid) t in
  let o' := on_bus_message (MsgUnsubscribe channel uid) t in
  (result o = Returned tt /\ effects o = []
   /\ emitted (effects o) = [] /\ published (effects o) = [])
  /\ (result o' = Returned tt /\ effects o' = []
      /\ emitted (effects o') = [] /\ published (effects o') = []).
Proof.
  intros o o'. split.
  - assert (H : result o = Returned tt /\ effects o = []).
    { unfold o, on_bus_message, subscribeLocally, bind.
      rewrite sm_subscribe_run. cbn [onSubscribe].
      destruct (subscribe_accepts _ (manager t)); split; reflexivity. }
    destruct H as [Hr He]. rewrite He. repeat split; assumption.
  - assert (H : result o' = Returned tt /\ effects o' = []).
    { unfold o', on_bus_message, unsubscribeLocally, bind.
      rewrite sm_unsubscribe_run. cbn [onUnsubscribe unsub_uid unsub_channel].
      destruct (is_subscribed (manager t) uid channel); split; reflexivity. }
    destruct H as [Hr He]. rewrite He. repeat split; assumption.
Qed.

(** C5.  [subscribe(params)] returns whether the stream manager grants the
    request, and [unsubscribe(params)] whether a removal occurred.  When
    [subscribe] succeeds its calls are: one 'subscribe' lifecycle event with
    the uid, channel and context, then, if a bus is configured, one Subscribe
    message [{ channel, payload: { uid } }] published to the bus.  When
    [unsubscribe] removes a subscription its calls are: one 'unsubscribe'
    event, then, if a bus is configured, one Unsubscribe message.  When they
    return false they make no call. *)
Theorem subscription_wiring (p : SubscribeParams Ctx)
  (q : UnsubscribeParams Ctx) t :
  let o := subscribe p t in
  let o' := unsubscribe q t in
  result o = Returned (subscribe_accepts p (manager t))
  /\ (result o = Returned true -> effects o = subscribe_notifications p t)
  /\ (result o = Returned false -> effects o = [])
  /\ result o'
     = Returned (is_subscribed (manager t) (unsub_uid q) (unsub_channel q))
  /\ (result o' = Returned true -> effects o' = unsubscribe_notifications q t)
  /\ (result o' = Returned false -> effects o' = []).
Proof.
  intros o o'.
  assert (Ho : result o = Returned (subscribe_accepts p (manager t))
               /\ effects o = if subscribe_accepts p (manager t)
                              then subscribe_notifications p t else []).
  { unfold o, subscribe. rewrite sm_subscribe_run.
    unfold subscribe_accepts, subscribe_notifications.
    cbn [sub_uid sub_channel sub_context skipAuthorization onSubscribe].
    match goal with |- context [if ?b then _ else _] => destruct b end;
      [|split; reflexivity].
    cbv zeta. unfold with_manager, set_manager, bus_publish, emit, tell,
      assign, this, ret, bind. cbn.
    destruct (bus t); split; reflexivity. }
  assert (Ho' : result o' = Returned (is_subscribed (manager t) (unsub_uid q)
                                                    (unsub_channel q))
                /\ effects o'
                   = if is_subscribed (manager t) (unsub_uid q)
                                      (unsub_channel q)
                     then unsubscribe_notifications q t else []).
  { unfold o', unsubscribe. rewrite sm_unsubscribe_run.
    unfold unsubscribe_notifications.
    cbn [unsub_uid unsub_channel unsub_context onUnsubscribe].
    destruct (is_subscribed (manager t) (unsub_uid q) (unsub_channel q));
      [|split; reflexivity].
    cbv zeta. unfold with_manager, set_manager, bus_publish, emit, tell,
      assign, this, ret, bind. cbn.
    destruct (bus t); split; reflexivity. }
  destruct Ho as [Hr He]. destruct Ho' as [Hr' He'].
  rewrite Hr, He, Hr', He'.
  repeat split; intros H; inversion H as [Hb]; rewrite Hb; reflexivity.
Qed.

(** *** Shutdown *)

(** C7 (amended).  [shutdown()] returns normally, with or without a bus (what
    the adapter's [disconnect()] does is the adapter's).  It clears the
    keepalive timer when one was started, so that the timer no longer fires,
    and calls [disconnect()] on the bus adapter exactly when a bus is
    configured.  A second call is not guarded: it leaves the instance
    as the first call left it and, when a bus is configured, calls
    [disconnect()] on the adapter once more; it is a no-op when no bus is
    configured. *)
Theorem shutdown_stops_timer_and_disconnects t :
  let o1 := shutdown t in
  let o2 := shutdown (final o1) in
  result o1 = Returned tt
  /\ interval (final o1) = option_map clearInterval (interval t)
  /\ no_op interval_fires (final o1)
  /\ effects o1 = match bus t with Some _ => [BusDisconnect] | None => [] end
  /\ result o2 = Returned tt
  /\ final o2 = final o1
  /\ effects o2 = match bus t with Some _ => [BusDisconnect] | None => [] end
  /\ (bus t = None -> no_op shutdown (final o1)).
Proof.
  intros o1 o2. unfold o2, o1, no_op.
  destruct t as [cfg m ch b i].
  destruct i as [[d c]|]; destruct b as [b|];
    repeat split; try reflexivity; discriminate.
Qed.

End Proofs.

(* ------------------------------------------------------------------ *)
(** ** The properties on the sample instances *)

(** A Broadcast message from the bus reaches alice and bob, the subscribers
    of "news". *)
Lemma bus_broadcast_sample :
  all_open (findByChannel (manager sample_instance) "news") = true
  /\ result (on_bus_message (MsgBroadcast "news" (BString "hi"))
                            sample_instance) = Returned tt
  /\ written (effects (on_bus_message (MsgBroadcast "news" (BString "hi"))
                                      sample_instance))
     = [("alice", {| data_channel := "news"; data_payload := BString "hi" |});
        ("bob", {| data_channel := "news"; data_payload := BString "hi" |})].
Proof.
  assert (Hopen :
    all_open (findByChannel (manager sample_instance) "news") = true)
    by reflexivity.
  destruct (bus_broadcast_is_local_only "news" (BString "hi") sample_instance)
    as (_ & _ & _ & _ & H).
  destruct (H Hopen) as [Hr Hw].
  split; [exact Hopen|]. split; [exact Hr | exact Hw].
Defined.

(** [broadcast("news", "hi")] on the sample instance delivers "hi". *)
Lemma broadcast_sample :
  all_open (findByChannel (manager sample_instance) "news") = true
  /\ broadcast_delivers "news" (BString "hi") sample_instance
       (broadcast "news" (Some (BString "hi")) sample_instance).
Proof.
  assert (Hopen :
    all_open (findByChannel (manager sample_instance) "news") = true)
    by reflexivity.
  destruct (broadcast_publishes_fans_out_and_emits "news"
              (Some (BString "hi")) sample_instance) as (_ & _ & H).
  destruct (H Hopen) as (_ & _ & Hd).
  split; [exact Hopen | exact Hd].
Defined.

(** [broadcast("news", 0)] does not deliver 0: the message published to the
    bus and the messages written to alice and bob carry [{}]. *)
Lemma broadcast_zero_is_not_delivered :
  published (effects (broadcast "news" (Some (BNumber 0)) sample_instance))
  <> [("transmit::broadcast", MsgBroadcast "news" (BNumber 0))]
  /\ written (effects (broadcast "news" (Some (BNumber 0)) sample_instance))
     <> deliveries {| data_channel := "news"; data_payload := BNumber 0 |}
                   (findByChannel (manager sample_instance) "news")
  /\ ~ broadcast_delivers "news" (BNumber 0) sample_instance
         (broadcast "news" (Some (BNumber 0)) sample_instance).
Proof.
  split; [|split].
  - vm_compute. discriminate.
  - vm_compute. discriminate.
  - intros [H _]. vm_compute in H. discriminate.
Qed.

(** [broadcastExcept("news", "hi", ["alice"])] writes to bob only. *)
Lemma broadcastExcept_sample :
  all_open (fanout_targets (ManySenders ["alice"])
              (findByChannel (manager sample_instance) "news")) = true
  /\ written (effects (broadcastExcept "news" (BString "hi")
                         (ManySenders ["alice"]) sample_instance))
     = [("bob", {| data_channel := "news"; data_payload := BString "hi" |})].
Proof.
  assert (Hopen :
    all_open (fanout_targets (ManySenders ["alice"])
                (findByChannel (manager sample_instance) "news")) = true)
    by reflexivity.
  destruct (broadcastExcept_skips_excluded "news" (BString "hi")
              (ManySenders ["alice"]) sample_instance) as (_ & _ & H).
  destruct (H Hopen) as (_ & Hw & _).
  split; [exact Hopen | exact Hw].
Defined.

(** With mallory's sink broken, [broadcast("news", "hi")] throws at mallory
    and alice and bob, though subscribed and writable, receive nothing. *)
Lemma fanout_sample_failure :
  fanout_targets NoSender
    (findByChannel (manager sample_faulty_instance) "news")
  = [] ++ mallory :: [alice; bob]
  /\ result (broadcastLocally "news" (BString "hi") NoSender
               sample_faulty_instance)
     = Thrown (TransportWriteFailure "mallory")
  /\ written (effects (broadcastLocally "news" (BString "hi") NoSender
                         sample_faulty_instance)) = [].
Proof.
  assert (Hsplit :
    fanout_targets NoSender
      (findByChannel (manager sample_faulty_instance) "news")
    = [] ++ mallory :: [alice; bob]) by reflexivity.
  destruct (fanout_has_no_per_stream_catch "news" (BString "hi") NoSender
              sample_faulty_instance) as (_ & H & _).
  destruct (H [] mallory [alice; bob] Hsplit eq_refl eq_refl) as [Hr Hw].
  split; [exact Hsplit|]. split; [exact Hr | exact Hw].
Defined.

(** The failure of mallory's write is not caught: the fan-out is not
    best-effort. *)
Lemma broken_sink_aborts_fanout :
  In alice (findByChannel (manager sample_faulty_instance) "news")
  /\ sink_open (sink alice) = true
  /\ result (broadcast "news" (Some (BString "hi")) sample_faulty_instance)
     = Thrown (TransportWriteFailure "mallory")
  /\ written (effects (broadcast "news" (Some (BString "hi"))
                                 sample_faulty_instance)) = []
  /\ ~ best_effort "news" (BString "hi") sample_faulty_instance
         (broadcast "news" (Some (BString "hi")) sample_faulty_instance).
Proof.
  split; [right; left; reflexivity|]. split; [reflexivity|].
  split; [reflexivity|]. split; [reflexivity|].
  intros [H _]. vm_compute in H. discriminate.
Qed.

(** With mallory's sink broken, [broadcastExcept("news", "hi", "bob")]
    throws at mallory: alice is indexed for "news", is not excluded and has
    an open sink, yet she is not written. *)
Lemma broadcastExcept_stops_at_broken_sink :
  In alice (findByChannel (manager sample_faulty_instance) "news")
  /\ ~ excluded (OneSender "bob") (getUid alice)
  /\ sink_open (sink alice) = true
  /\ result (broadcastExcept "news" (BString "hi") (OneSender "bob")
               sample_faulty_instance)
     = Thrown (TransportWriteFailure "mallory")
  /\ written (effects (broadcastExcept "news" (BString "hi")
                         (OneSender "bob") sample_faulty_instance)) = []
  /\ ~ (forall s,
          In s (findByChannel (manager sample_faulty_instance) "news") ->
          ~ excluded (OneSender "bob") (getUid s) ->
          In (getUid s,
              {| data_channel := "news"; data_payload := BString "hi" |})
             (written (effects (broadcastExcept "news" (BString "hi")
                                  (OneSender "bob")
                                  sample_faulty_instance)))).
Proof.
  assert (Hin : In alice
                  (findByChannel (manager sample_faulty_instance) "news"))
    by (right; left; reflexivity).
  assert (Hex : ~ excluded (OneSender "bob") (getUid alice))
    by (simpl; discriminate).
  split; [exact Hin|]. split; [exact Hex|]. split; [reflexivity|].
  split; [reflexivity|]. split; [reflexivity|].
  intros H. exact (H alice Hin Hex).
Qed.

(** With mallory's sink broken, a firing of the running timer throws at
    mallory: alice and bob are live and their sinks are open, yet no stream
    is pinged. *)
Lemma keepalive_stops_at_broken_sink :
  timer_running sample_faulty_instance = true
  /\ In alice (streams (manager sample_faulty_instance))
  /\ sink_open (sink alice) = true
  /\ result (interval_fires sample_faulty_instance)
     = Thrown (TransportWriteFailure "mallory")
  /\ written (effects (interval_fires sample_faulty_instance)) = []
  /\ ~ (forall s, In s (streams (manager sample_faulty_instance)) ->
                  In (getUid s, ping_message)
                     (written (effects (interval_fires
                                          sample_faulty_instance)))).
Proof.
  assert (Hin : In alice (streams (manager sample_faulty_instance)))
    by (right; left; reflexivity).
  split; [reflexivity|]. split; [exact Hin|]. split; [reflexivity|].
  split; [reflexivity|]. split; [reflexivity|].
  intros H. exact (H alice Hin).
Qed.

(** [broadcast("news", 0)] publishes, writes and announces [{}]. *)
Lemma broadcast_falsy_sample :
  truthy_arg (Some (BNumber 0)) = false
  /\ published (effects (broadcast "news" (Some (BNumber 0)) sample_instance))
     = [("transmit::broadcast", MsgBroadcast "news" (BObject []))]
  /\ written (effects (broadcast "news" (Some (BNumber 0)) sample_instance))
     = [("alice", {| data_channel := "news"; data_payload := BObject [] |});
        ("bob", {| data_channel := "news"; data_payload := BObject [] |})]
  /\ emitted (effects (broadcast "news" (Some (BNumber 0)) sample_instance))
     = [OnBroadcast "news" (BObject [])]
  /\ Forall (fun e => carried_payload e <> Some (BNumber 0))
            (effects (broadcast "news" (Some (BNumber 0)) sample_instance)).
Proof.
  destruct (broadcast_replaces_falsy_payload "news" (Some (BNumber 0))
              sample_instance eq_refl)
    as (_ & Hp & Hw & He & _ & _ & Hnever).
  split; [reflexivity|]. split; [exact Hp|]. split; [exact Hw|].
  split; [exact He|]. exact (Hnever (BNumber 0) eq_refl).
Defined.

(** A firing of the sample instance's timer pings alice, bob and carol,
    carol having no subscription. *)
Lemma keepalive_sample :
  interval sample_instance = Some {| delay := 30000; cleared := false |}
  /\ subscriptions carol = []
  /\ written (effects (interval_fires sample_instance))
     = [("alice", ping_message); ("bob", ping_message);
        ("carol", ping_message)].
Proof.
  destruct (keepalive_ping_reaches_every_stream sample_instance
              {| delay := 30000; cleared := false |} eq_refl eq_refl)
    as (_ & _ & _ & _ & _ & _ & _ & H).
  destruct (H eq_refl) as [_ Hw].
  split; [reflexivity|]. split; [reflexivity | exact Hw].
Defined.

(** The registry of the sample instance denies bob the chat, yet a Subscribe
    message from the bus subscribes him. *)
Example replay_overrides_denial :
  result (subscribe {| sub_uid := "bob"; sub_channel := "chats/5/messages";
                       sub_context := Some "session-2";
                       skipAuthorization := false; onSubscribe := None |}
                    sample_instance) = Returned false
  /\ is_subscribed
       (manager (final (on_bus_message (MsgSubscribe "chats/5/messages" "bob")
                                       sample_instance)))
       "bob" "chats/5/messages" = true.
Proof. split; reflexivity. Qed.

(** bob subscribes to "sports" and leaves "news" on the sample instance. *)
Lemma subscription_wiring_sample :
  effects (subscribe {| sub_uid := "bob"; sub_channel := "sports";
                        sub_context := Some "session-2";
                        skipAuthorization := false; onSubscribe := None |}
                     sample_instance)
  = [Emit (OnSubscribe "bob" "sports" (Some "session-2"));
     BusPublish "transmit::broadcast" (MsgSubscribe "sports" "bob")]
  /\ effects (unsubscribe {| unsub_uid := "bob"; unsub_channel := "news";
                             unsub_context := Some "session-2";
                             onUnsubscribe := None |}
                          sample_instance)
     = [Emit (OnUnsubscribe "bob" "news" (Some "session-2"));
        BusPublish "transmit::broadcast" (MsgUnsubscribe "news" "bob")].
Proof.
  destruct (subscription_wiring
              {| sub_uid := "bob"; sub_channel := "sports";
                 sub_context := Some "session-2";
                 skipAuthorization := false; onSubscribe := None |}
              {| unsub_uid := "bob"; unsub_channel := "news";
                 unsub_context := Some "session-2"; onUnsubscribe := None |}
              sample_instance) as (_ & Hs & _ & _ & Hu & _).
  split; [exact (Hs eq_refl) | exact (Hu eq_refl)].
Defined.

(** Without a bus a second [shutdown()] does nothing. *)
Lemma shutdown_sample_without_bus :
  bus sample_local_instance = None
  /\ no_op shutdown (final (shutdown sample_local_instance)).
Proof.
  destruct (shutdown_stops_timer_and_disconnects sample_local_instance)
    as (_ & _ & _ & _ & _ & _ & _ & H).
  split; [reflexivity | exact (H eq_refl)].
Defined.

(** With a bus a second [shutdown()] calls [disconnect()] again. *)
Lemma second_shutdown_disconnects_again :
  effects (shutdown (final (shutdown sample_instance))) = [BusDisconnect]
  /\ ~ no_op shutdown (final (shutdown sample_instance)).
Proof.
  split; [reflexivity|].
  intros (_ & _ & H). vm_compute in H. discriminate.
Qed.

(* ------------------------------------------------------------------ *)
(** ** Further properties of the orchestrator *)

Section Composition.

Context {Ctx : Type}.

Implicit Types (t : Transmit Ctx) (l : list (Stream Ctx)) (s : Stream Ctx).
Implicit Types (es : list (Effect Ctx)) (message : Message).
Implicit Types (c : Call Ctx) (cs : list (Call Ctx)).

(** *** How each method runs *)

Lemma subscribe_run (p : SubscribeParams Ctx) t :
  subscribe p t
  = if subscribe_accepts p (manager t)
    then {| result := Returned true;
            final := with_manager
                       (index_subscribe (sub_uid p) (sub_channel p)
                                        (manager t)) t;
            effects := subscribe_notifications p t |}
    else ret false t.
Proof.
  unfold subscribe. rewrite sm_subscribe_run.
  unfold subscribe_accepts, subscribe_notifications.
  cbn [sub_uid sub_channel sub_context skipAuthorization onSubscribe].
  match goal with |- context [if ?b then _ else _] => destruct b end;
    [|reflexivity].
  cbv zeta. unfold with_manager, set_manager, bus_publish, emit, tell,
    assign, this, ret, bind. cbn.
  destruct (bus t); reflexivity.
Qed.

Lemma unsubscribe_run (q : UnsubscribeParams Ctx) t :
  unsubscribe q t
  = if is_subscribed (manager t) (unsub_uid q) (unsub_channel q)
    then {| result := Returned true;
            final := with_manager
                       (index_unsubscribe (unsub_uid q) (unsub_channel q)
                                          (manager t)) t;
            effects := unsubscribe_notifications q t |}
    else ret false t.
Proof.
  unfold unsubscribe. rewrite sm_unsubscribe_run.
  unfold unsubscribe_notifications.
  cbn [unsub_uid unsub_channel unsub_context onUnsubscribe].
  destruct (is_subscribed (manager t) (unsub_uid q) (unsub_channel q));
    [|reflexivity].
  cbv zeta. unfold with_manager, set_manager, bus_publish, emit, tell,
    assign, this, ret, bind. cbn.
  destruct (bus t); reflexivity.
Qed.

Lemma shutdown_run t :
  shutdown t
  = {| result := Returned tt;
       final := {| config := config t; manager := manager t;
                   transportChannel := transportChannel t; bus := bus t;
                   interval := option_map clearInterval (interval t) |};
       effects := match bus t with
                  | Some _ => [BusDisconnect]
                  | None => []
                  end |}.
Proof.
  destruct t as [cfg m ch b i]. destruct i as [tm|]; destruct b as [b|];
    reflexivity.
Qed.

Lemma interval_fires_run t :
  interval_fires t = if timer_running t then ping t else ret tt t.
Proof.
  unfold interval_fires, timer_running.
  rewrite (bind_pure this _ t t t eq_refl).
  destruct (interval t) as [tm|]; [|reflexivity].
  destruct (cleared tm); reflexivity.
Qed.

Lemma unsubscribeLocally_run (uid channel : string) (context : option Ctx) t :
  unsubscribeLocally uid channel context t
  = if is_subscribed (manager t) uid channel
    then ret true (with_manager (index_unsubscribe uid channel (manager t)) t)
    else ret false t.
Proof. unfold unsubscribeLocally. rewrite sm_unsubscribe_run. reflexivity. Qed.

(** Dropping the result of a call changes neither what it does nor the
    state it leaves. *)
Lemma bind_discard {A : Type} (m : M Ctx A) t :
  final (bind m (fun _ => ret tt) t) = final (m t)
  /\ effects (bind m (fun _ => ret tt) t) = effects (m t).
Proof.
  unfold bind, ret. destruct (m t) as [[a|e] f es]; cbn;
    rewrite ?app_nil_r; split; reflexivity.
Qed.

(** *** What a call leaves alone *)

Lemma frame_same c t : is_shutdown c = false -> frame c t t.
Proof. intros H. unfold frame. rewrite H. repeat split. Qed.

Lemma frame_with_manager c m t :
  is_shutdown c = false -> frame c t (with_manager m t).
Proof. intros H. unfold frame. rewrite H. repeat split. Qed.

Lemma bus_call_ok_writes t message l : Forall (bus_call_ok t) (writes message l).
Proof. induction l; simpl; constructor; simpl; auto. Qed.

Lemma fanout_outcome_frame c t message l :
  is_shutdown c = false ->
  frame c t (final (fanout_outcome message l t))
  /\ Forall (bus_call_ok t) (effects (fanout_outcome message l t)).
Proof.
  intros H. unfold fanout_outcome. cbn [final effects].
  split; [apply frame_same; exact H | apply bus_call_ok_writes].
Qed.

Lemma perform_frame c t :
  frame c t (final (perform c t))
  /\ Forall (bus_call_ok t) (effects (perform c t)).
Proof.
  destruct c as [p|q|channel payload|channel payload x| |message|];
    cbn [perform].
  - destruct (bind_discard (subscribe p) t) as [-> ->].
    rewrite subscribe_run. destruct (subscribe_accepts p (manager t)).
    + cbn [final effects]. split; [apply frame_with_manager; reflexivity|].
      unfold subscribe_notifications. constructor; [exact I|].
      destruct (bus t) eqn:Hb; constructor; [|constructor].
      cbn. rewrite Hb. split; [reflexivity | discriminate].
    + split; [apply frame_same; reflexivity | constructor].
  - destruct (bind_discard (unsubscribe q) t) as [-> ->].
    rewrite unsubscribe_run.
    destruct (is_subscribed (manager t) (unsub_uid q) (unsub_channel q)).
    + cbn [final effects]. split; [apply frame_with_manager; reflexivity|].
      unfold unsubscribe_notifications. constructor; [exact I|].
      destruct (bus t) eqn:Hb; constructor; [|constructor].
      cbn. rewrite Hb. split; [reflexivity | discriminate].
    + split; [apply frame_same; reflexivity | constructor].
  - rewrite broadcast_run. cbv zeta.
    assert (Hpub : Forall (bus_call_ok t)
              match bus t with
              | Some _ =>
                  [BusPublish (transportChannel t)
                     (MsgBroadcast channel (effective_payload payload))]
              | None => []
              end).
    { destruct (bus t) eqn:Hb; constructor; [|constructor].
      cbn. rewrite Hb. split; [reflexivity | discriminate]. }
    destruct (first_broken (findByChannel (manager t) channel));
      cbn [final effects]; (split; [apply frame_same; reflexivity|]);
      repeat (apply Forall_app; split); auto using bus_call_ok_writes.
    constructor; [exact I | constructor].
  - unfold broadcastExcept. rewrite broadcastLocally_run.
    apply fanout_outcome_frame. reflexivity.
  - rewrite shutdown_run. cbn [final effects]. split.
    + unfold frame. cbn. repeat split.
    + destruct (bus t) eqn:Hb; constructor; [|constructor].
      cbn. rewrite Hb. discriminate.
  - destruct message as [channel payload|channel uid|channel uid];
      cbn [on_bus_message].
    + rewrite broadcastLocally_run. apply fanout_outcome_frame. reflexivity.
    + destruct (bind_discard (subscribeLocally uid channel None) t)
        as [-> ->].
      rewrite subscribeLocally_run.
      destruct (negb (String.eqb channel "") && has_stream (manager t) uid);
        cbn [ret final effects];
        (split; [|constructor]).
      * apply frame_with_manager. reflexivity.
      * apply frame_same. reflexivity.
    + destruct (bind_discard (unsubscribeLocally uid channel None) t)
        as [-> ->].
      rewrite unsubscribeLocally_run.
      destruct (is_subscribed (manager t) uid channel);
        cbn [ret final effects];
        (split; [|constructor]).
      * apply frame_with_manager. reflexivity.
      * apply frame_same. reflexivity.
  - rewrite interval_fires_run. destruct (timer_running t).
    + rewrite ping_run. apply fanout_outcome_frame. reflexivity.
    + split; [apply frame_same; reflexivity | constructor].
Qed.

Lemma bus_call_ok_same (t t' : Transmit Ctx) (e : Effect Ctx) :
  transportChannel t' = transportChannel t -> bus t' = bus t ->
  bus_call_ok t' e -> bus_call_ok t e.
Proof. intros Hc Hb. destruct e; cbn; rewrite ?Hc, ?Hb; auto. Qed.

(** What a sequence of calls leaves alone. *)
Lemma perform_all_frame cs t :
  let r := perform_all cs t in
  config (fst r) = config t
  /\ transportChannel (fst r) = transportChannel t
  /\ bus (fst r) = bus t
  /\ (has_shutdown cs = false -> interval (fst r) = interval t)
  /\ (has_shutdown cs = true -> timer_running (fst r) = false)
  /\ (timer_running t = false -> timer_running (fst r) = false)
  /\ Forall (bus_call_ok t) (snd r).
Proof.
  revert t. induction cs as [|c cs IH]; intros t; cbn [perform_all fst snd].
  - repeat split; auto; discriminate.
  - destruct (perform_frame c t) as [(Hcfg & Hch & Hbus & Hint) Hok].
    specialize (IH (final (perform c t))). cbv zeta in IH.
    destruct IH as (IHcfg & IHch & IHbus & IHkeep & IHstop & IHmono & IHok).
    assert (Hcleared : is_shutdown c = true ->
                       timer_running (final (perform c t)) = false).
    { intros Hc. unfold timer_running. rewrite Hint, Hc.
      destruct (interval t); reflexivity. }
    assert (Hmono : timer_running t = false ->
                    timer_running (final (perform c t)) = false).
    { unfold timer_running. rewrite Hint.
      destruct (is_shutdown c); destruct (interval t) as [tm|]; cbn; auto. }
    cbn [has_shutdown]. repeat split.
    + congruence.
    + congruence.
    + congruence.
    + intros H. apply orb_false_iff in H. destruct H as [Hc Hcs].
      rewrite (IHkeep Hcs), Hint, Hc. reflexivity.
    + intros H. destruct (is_shutdown c) eqn:Hc.
      * apply IHmono. apply Hcleared. reflexivity.
      * apply IHstop. exact H.
    + intros H. apply IHmono. apply Hmono. exact H.
    + apply Forall_app. split; [exact Hok|].
      eapply Forall_impl; [|exact IHok].
      intros e. apply bus_call_ok_same; assumption.
Qed.

(** *** Sequences of calls *)

Lemma published_bus_call_ok t es :
  Forall (bus_call_ok t) es ->
  Forall (fun pm => fst pm = transportChannel t) (published es)
  /\ Forall (fun e => forall topic, e <> BusSubscribe topic) es
  /\ (bus t = None -> bus_calls es = []).
Proof.
  induction 1 as [|e es He Hes (IH1 & IH2 & IH3)].
  - repeat split; constructor.
  - assert (Hns : forall topic, e <> BusSubscribe topic).
    { intros topic ->. exact He. }
    split; [|split; [constructor; assumption|]].
    + destruct e; cbn in *; try exact IH1.
      constructor; [apply He | exact IH1].
    + intros Hb. unfold bus_calls in *.
      destruct e; cbn in *; try (apply IH3; exact Hb).
      * contradiction.
      * destruct He as [_ He]. contradiction.
      * contradiction.
Qed.

(** X3.  No sequence of calls of [subscribe], [unsubscribe], [broadcast],
    [broadcastExcept] and [shutdown], of bus deliveries and of timer firings
    changes the configuration, the transport channel or the bus of the
    instance; every message published along the way is published on the
    instance's transport channel, and the bus is never subscribed to
    again. *)
Theorem calls_publish_on_the_transport_channel cs t :
  let r := perform_all cs t in
  config (fst r) = config t
  /\ transportChannel (fst r) = transportChannel t
  /\ bus (fst r) = bus t
  /\ Forall (fun pm => fst pm = transportChannel t) (published (snd r))
  /\ Forall (fun e => forall topic, e <> BusSubscribe topic) (snd r).
Proof.
  destruct (perform_all_frame cs t) as (H1 & H2 & H3 & _ & _ & _ & Hok).
  destruct (published_bus_call_ok _ _ Hok) as (Hp & Hs & _).
  cbv zeta. auto.
Qed.

(** X4.  On an instance without a bus no sequence of calls makes any call on
    a bus: nothing is published, nothing is disconnected. *)
Theorem no_bus_no_bus_call cs t :
  bus t = None -> bus_calls (snd (perform_all cs t)) = [].
Proof.
  intros Hb. destruct (perform_all_frame cs t) as (_ & _ & _ & _ & _ & _ & Hok).
  destruct (published_bus_call_ok _ _ Hok) as (_ & _ & H). exact (H Hb).
Qed.

Lemma stopped_timer_does_nothing t :
  timer_running t = false -> no_op interval_fires t.
Proof.
  intros H. unfold no_op. rewrite interval_fires_run, H.
  repeat split.
Qed.

(** X5.  Only [shutdown] touches the keepalive timer, and nothing restarts
    it: a sequence of calls without [shutdown] leaves the timer handle as it
    was, and once [shutdown] has run a firing of the timer does nothing,
    whatever is called afterwards. *)
Theorem only_shutdown_stops_the_timer cs t :
  (has_shutdown cs = false -> interval (fst (perform_all cs t)) = interval t)
  /\ (has_shutdown cs = true ->
      no_op interval_fires (fst (perform_all cs t)))
  /\ no_op interval_fires (fst (perform_all cs (final (shutdown t)))).
Proof.
  destruct (perform_all_frame cs t) as (_ & _ & _ & Hkeep & Hstop & _ & _).
  split; [exact Hkeep|]. split.
  - intros H. apply stopped_timer_does_nothing. exact (Hstop H).
  - destruct (perform_all_frame cs (final (shutdown t)))
      as (_ & _ & _ & _ & _ & Hmono & _).
    apply stopped_timer_does_nothing. apply Hmono.
    rewrite shutdown_run. unfold timer_running. cbn.
    destruct (interval t); reflexivity.
Qed.

(** X6.  [shutdown] closes no stream and forgets no subscription, and it
    does not stop the instance from broadcasting: after it, [broadcast]
    publishes to the bus, writes to the local subscribers and emits its event
    exactly as before, and [subscribe] answers and notifies as before. *)
Theorem shutdown_keeps_broadcasting (channel : string)
  (payload : option Broadcastable) (p : SubscribeParams Ctx) t :
  let t' := final (shutdown t) in
  manager t' = manager t
  /\ bus t' = bus t
  /\ result (broadcast channel payload t') = result (broadcast channel payload t)
  /\ effects (broadcast channel payload t')
     = effects (broadcast channel payload t)
  /\ result (subscribe p t') = result (subscribe p t)
  /\ effects (subscribe p t') = effects (subscribe p t).
Proof.
  cbv zeta. rewrite shutdown_run. cbn [final].
  rewrite !broadcast_run, !subscribe_run. cbv zeta.
  cbn [manager bus transportChannel].
  unfold subscribe_notifications. cbn [bus transportChannel].
  split; [reflexivity|]. split; [reflexivity|].
  split; [|split; [|split]].
  - destruct (first_broken (findByChannel (manager t) channel)); reflexivity.
  - destruct (first_broken (findByChannel (manager t) channel)); reflexivity.
  - destruct (subscribe_accepts p (manager t)); reflexivity.
  - destruct (subscribe_accepts p (manager t)); reflexivity.
Qed.

(** *** Local fan-out *)

Lemma carried_by_writes message l :
  Forall (fun e : Effect Ctx => carried_payload e = Some (data_payload message))
         (writes message l).
Proof. induction l; simpl; constructor; auto. Qed.

(** X7.  [broadcastExcept] is local to the instance: whatever its arguments
    it publishes nothing to the bus, emits no lifecycle event and leaves the
    instance as it was; and it passes the payload on as given, falsy values
    included (it has no guard like the one of [broadcast]). *)
Theorem broadcastExcept_is_local_only (channel : string)
  (payload : Broadcastable) (senderUid : SenderUid) t :
  let o := broadcastExcept channel payload senderUid t in
  published (effects o) = []
  /\ emitted (effects o) = []
  /\ bus_calls (effects o) = []
  /\ final o = t
  /\ Forall (fun e => carried_payload e = Some payload) (effects o).
Proof.
  cbv zeta. unfold broadcastExcept. rewrite broadcastLocally_run.
  unfold fanout_outcome. cbn [effects final].
  repeat split.
  - apply published_writes.
  - apply emitted_writes.
  - unfold bus_calls.
    induction (reached (fanout_targets senderUid
                          (findByChannel (manager t) channel)));
      simpl; auto.
  - apply (carried_by_writes
             {| data_channel := channel; data_payload := payload |}).
Qed.

Lemma fanout_targets_ext (x y : SenderUid) l :
  (forall s, In s l ->
             (excluded x (getUid s) <-> excluded y (getUid s))) ->
  fanout_targets x l = fanout_targets y l.
Proof.
  intros H. unfold fanout_targets. apply filter_ext_in. intros s Hs.
  f_equal. specialize (H s Hs).
  destruct (is_sender x (getUid s)) eqn:Ex;
    destruct (is_sender y (getUid s)) eqn:Ey; try reflexivity.
  - apply is_sender_excluded in Ex. apply H in Ex.
    apply is_sender_excluded in Ex. congruence.
  - apply is_sender_excluded in Ey. apply H in Ey.
    apply is_sender_excluded in Ey. congruence.
Qed.

(** X8.  What [broadcastExcept] does depends on the exclusion argument only
    through the set of uids it denotes among the subscribers of the channel:
    two arguments that exclude the same subscribers (a uid or the array of
    that uid, an array in another order or with repetitions, uids that are
    not subscribed) give the same writes and the same result. *)
Theorem exclusion_depends_on_the_set_only (channel : string)
  (payload : Broadcastable) (x y : SenderUid) t :
  (forall s, In s (findByChannel (manager t) channel) ->
             (excluded x (getUid s) <-> excluded y (getUid s))) ->
  broadcastExcept channel payload x t = broadcastExcept channel payload y t.
Proof.
  intros H. unfold broadcastExcept. rewrite !broadcastLocally_run.
  rewrite (fanout_targets_ext x y _ H). reflexivity.
Qed.

(** *** Broadcast *)

(** X9.  [broadcast] is its bus publish, then the local fan-out of
    [broadcastExcept] with an empty exclusion list on the effective payload,
    then its event: it has the result of that fan-out, its calls are the
    publish (when there is a bus), the calls of that fan-out and, when the
    fan-out returns, the 'broadcast' event. *)
Theorem broadcast_is_publish_fanout_event (channel : string)
  (payload : option Broadcastable) t :
  let sent := effective_payload payload in
  let fanout := broadcastExcept channel sent (ManySenders []) t in
  result (broadcast channel payload t) = result fanout
  /\ effects (broadcast channel payload t)
     = match bus t with
       | Some _ =>
           [BusPublish (transportChannel t) (MsgBroadcast channel sent)]
       | None => []
       end
       ++ effects fanout
       ++ match result fanout with
          | Returned _ => [Emit (OnBroadcast channel sent)]
          | Thrown _ => []
          end.
Proof.
  cbv zeta. rewrite broadcast_run. cbv zeta.
  unfold broadcastExcept. rewrite broadcastLocally_run.
  assert (Ht : fanout_targets (ManySenders [])
                 (findByChannel (manager t) channel)
               = findByChannel (manager t) channel).
  { rewrite <- (fanout_targets_no_sender (findByChannel (manager t) channel))
      at 2.
    apply fanout_targets_ext. intros s _. simpl. tauto. }
  rewrite Ht. unfold fanout_outcome. cbn [result effects].
  destruct (first_broken (findByChannel (manager t) channel)) eqn:Hb;
    cbn [result effects].
  - rewrite app_nil_r. split; reflexivity.
  - rewrite (reached_no_broken _ Hb). split; reflexivity.
Qed.

Lemma effective_payload_truthy (payload : option Broadcastable) :
  truthy (effective_payload payload) = true.
Proof.
  destruct payload as [v|]; simpl; [|reflexivity].
  destruct (truthy v) eqn:Hv; [exact Hv | reflexivity].
Qed.

(** X10.  No call of [broadcast] carries a falsy payload anywhere: whatever
    the argument, every payload it publishes to the bus, writes to a stream
    or puts in its event is one and the same truthy value, the argument
    itself when that is truthy (an empty array or object included). *)
Theorem broadcast_payload_is_never_falsy (channel : string)
  (payload : option Broadcastable) t :
  let sent := effective_payload payload in
  truthy sent = true
  /\ (forall v, payload = Some v -> truthy v = true -> sent = v)
  /\ Forall (fun e => carried_payload e = Some sent)
            (effects (broadcast channel payload t)).
Proof.
  cbv zeta. split; [apply effective_payload_truthy|]. split.
  - intros v -> Hv. simpl. rewrite Hv. reflexivity.
  - rewrite broadcast_run. cbv zeta.
    destruct (first_broken (findByChannel (manager t) channel));
      cbn [effects]; repeat (apply Forall_app; split);
      try apply (carried_by_writes
                   {| data_channel := channel;
                      data_payload := effective_payload payload |});
      destruct (bus t); repeat constructor.
Qed.

(** X11.  [broadcast] publishes to the bus before it writes to the local
    streams: when a local sink write throws on an instance with a bus, the
    call throws and emits no 'broadcast' event, yet the message has been
    published, so the other instances still deliver it. *)
Theorem broadcast_publishes_before_writing (channel : string)
  (payload : option Broadcastable) t (the_bus : Bus) s :
  bus t = Some the_bus ->
  first_broken (findByChannel (manager t) channel) = Some s ->
  let o := broadcast channel payload t in
  result o = Thrown (TransportWriteFailure (getUid s))
  /\ published (effects o)
     = [(transportChannel t,
         MsgBroadcast channel (effective_payload payload))]
  /\ emitted (effects o) = [].
Proof.
  intros Hb Hs. cbv zeta. rewrite broadcast_run. cbv zeta.
  rewrite Hb, Hs. cbn [result effects].
  rewrite published_app, emitted_app, published_writes, emitted_writes.
  repeat split.
Qed.

(** X12.  Replication of a broadcast: on an instance with a bus [broadcast]
    publishes one message; when the bus delivers that message to another
    instance, that instance writes to its own subscribers of the channel the
    very message the first instance wrote to its own, and it publishes and
    emits nothing, so the message travels one hop. *)
Theorem broadcast_reaches_remote_subscribers (channel : string)
  (payload : option Broadcastable) (a b : Transmit Ctx) (the_bus : Bus) :
  bus a = Some the_bus ->
  let sent := effective_payload payload in
  let message := {| data_channel := channel; data_payload := sent |} in
  let replicated := MsgBroadcast channel sent in
  published (effects (broadcast channel payload a))
  = [(transportChannel a, replicated)]
  /\ written (effects (broadcast channel payload a))
     = deliveries message (reached (findByChannel (manager a) channel))
  /\ written (effects (on_bus_message replicated b))
     = deliveries message (reached (findByChannel (manager b) channel))
  /\ published (effects (on_bus_message replicated b)) = []
  /\ emitted (effects (on_bus_message replicated b)) = []
  /\ final (on_bus_message replicated b) = b.
Proof.
  intros Hb. cbv zeta. rewrite broadcast_run. cbv zeta. rewrite Hb.
  cbn [on_bus_message]. rewrite broadcastLocally_run.
  rewrite fanout_targets_no_sender. unfold fanout_outcome.
  cbn [effects final].
  rewrite published_writes, emitted_writes, written_writes.
  destruct (first_broken (findByChannel (manager a) channel)) eqn:Hf;
    cbn [effects];
    rewrite !published_app, !written_app, published_writes, written_writes;
    rewrite ?(reached_no_broken _ Hf); cbn; rewrite ?app_nil_r;
    repeat split.
Qed.

(** X13.  [broadcast] does not guard the channel name of the keepalive: a
    broadcast on '$$transmit/ping' with no payload (or a falsy one) writes to
    the subscribers of that channel the very message a keepalive ping
    writes. *)
Theorem broadcast_on_the_ping_channel (payload : option Broadcastable) t :
  truthy_arg payload = false ->
  written (effects (broadcast "$$transmit/ping" payload t))
  = deliveries ping_message
      (reached (findByChannel (manager t) "$$transmit/ping")).
Proof.
  intros Hf. rewrite broadcast_run. cbv zeta.
  assert (Hsent : effective_payload payload = empty_object).
  { destruct payload as [v|]; simpl in *; [rewrite Hf|]; reflexivity. }
  rewrite Hsent. fold ping_message.
  destruct (first_broken (findByChannel (manager t) "$$transmit/ping"))
    eqn:Hb; cbn [effects];
    rewrite !written_app, written_writes;
    rewrite ?(reached_no_broken _ Hb);
    destruct (bus t); cbn; rewrite ?app_nil_r; reflexivity.
Qed.

(** *** Construction and connections *)

(** X1.  The bus of an instance is decided by the driver passed to the
    constructor, not by [config.transport].  With a driver the constructor
    subscribes once, to [config.transport.channel] or to
    'transmit::broadcast' when none is configured (it does so before it
    reads the ping interval), the instance it returns holds a bus on that
    driver and that channel, and whatever the instance is asked to do later,
    every message it publishes goes to that same channel; without a driver
    it subscribes to nothing and the instance never calls a bus, even when
    [config.transport] names a channel. *)
Theorem constructed_instance_publishes_where_it_subscribed
  (parse : string -> option Z) (cfg : TransmitConfig) (driver : Transport)
  (m : StreamManager Ctx) cs :
  let with_bus := new_Transmit parse cfg (Some driver) in
  let without := new_Transmit parse cfg None in
  snd with_bus = [BusSubscribe (configured_channel cfg)]
  /\ (forall t0, fst with_bus = Returned t0 ->
        bus t0 = Some {| bus_transport := driver; retryQueue_enabled := true |}
        /\ transportChannel t0 = configured_channel cfg
        /\ Forall (fun pm => fst pm = configured_channel cfg)
             (published (snd (perform_all cs (with_manager m t0)))))
  /\ snd without = []
  /\ (forall t0, fst without = Returned t0 ->
        bus t0 = None
        /\ bus_calls (snd (perform_all cs (with_manager m t0))) = [])
  /\ (pingInterval cfg = None ->
      exists t0 t1, fst with_bus = Returned t0 /\ fst without = Returned t1)
  /\ (transport cfg = None -> configured_channel cfg = "transmit::broadcast")
  /\ (forall name : string,
        transport cfg = Some {| transport_channel := Some name |} ->
        configured_channel cfg = name).
Proof.
  cbv zeta.
  assert (Hbuilt : forall tr t0,
    fst (new_Transmit (Ctx := Ctx) parse cfg tr) = Returned t0 ->
    transportChannel t0 = configured_channel cfg
    /\ bus t0 = match tr with
                | Some d =>
                    Some {| bus_transport := d; retryQueue_enabled := true |}
                | None => None
                end).
  { intros tr t0. unfold new_Transmit. cbn [fst].
    destruct (pingInterval_set cfg) as [[ms|d]|];
      [| destruct (parse d) |]; intros H; inversion H; subst;
      split; reflexivity. }
  split; [reflexivity|]. split.
  - intros t0 H0. destruct (Hbuilt _ _ H0) as [Hch Hbus].
    split; [exact Hbus|]. split; [exact Hch|].
    destruct (perform_all_frame cs (with_manager m t0))
      as (_ & _ & _ & _ & _ & _ & Hok).
    destruct (published_bus_call_ok _ _ Hok) as (Hp & _ & _).
    change (transportChannel (with_manager m t0))
      with (transportChannel t0) in Hp.
    rewrite Hch in Hp. exact Hp.
  - split; [reflexivity|]. split.
    + intros t0 H0. destruct (Hbuilt _ _ H0) as [_ Hbus].
      split; [exact Hbus|].
      destruct (perform_all_frame cs (with_manager m t0))
        as (_ & _ & _ & _ & _ & _ & Hok).
      destruct (published_bus_call_ok _ _ Hok) as (_ & _ & H).
      apply H. exact Hbus.
    + split.
      * intros Hnone. unfold new_Transmit, pingInterval_set. cbn [fst].
        rewrite Hnone. eauto.
      * unfold configured_channel. split.
        -- intros ->. reflexivity.
        -- intros name ->. reflexivity.
Qed.

(** X2.  What the constructor makes of [config.pingInterval].  A number
    other than 0 starts the keepalive timer with that period; a duration
    string other than the empty one starts it with the period
    [string.milliseconds.parse] reads, and when that function throws on the
    string the constructor throws and returns no instance, after it has
    subscribed to the bus; 0, the empty string or no value start no timer and
    are never parsed.  An instance the constructor returns has a running
    timer exactly when [config.pingInterval] is truthy. *)
Theorem constructor_starts_the_timer_when_configured
  (parse : string -> option Z) (cfg : TransmitConfig) (tr : option Transport) :
  let built := new_Transmit (Ctx := Ctx) parse cfg tr in
  (forall ms, pingInterval cfg = Some (PingNumber ms) -> ms <> 0%Z ->
     exists t, fst built = Returned t
               /\ interval t = Some {| delay := ms; cleared := false |})
  /\ (forall d ms, pingInterval cfg = Some (PingString d) -> d <> "" ->
        parse d = Some ms ->
        exists t, fst built = Returned t
                  /\ interval t = Some {| delay := ms; cleared := false |})
  /\ (forall d, pingInterval cfg = Some (PingString d) -> d <> "" ->
        parse d = None ->
        fst built = Thrown (InvalidDuration d)
        /\ snd built = match tr with
                       | Some _ => [BusSubscribe (configured_channel cfg)]
                       | None => []
                       end)
  /\ (~ ping_configured cfg ->
      exists t, fst built = Returned t /\ interval t = None)
  /\ (forall t, fst built = Returned t ->
        (timer_running t = true <-> ping_configured cfg)).
Proof.
  cbv zeta. unfold new_Transmit. cbn [fst snd].
  assert (Hset : pingInterval_set cfg
                 = match pingInterval cfg with
                   | Some (PingNumber ms) =>
                       if Z.eqb ms 0 then None else Some (PingNumber ms)
                   | Some (PingString d) =>
                       if String.eqb d "" then None else Some (PingString d)
                   | None => None
                   end) by reflexivity.
  rewrite Hset. clear Hset.
  split; [|split; [|split; [|split]]].
  - intros ms -> Hms. destruct (Z.eqb_spec ms 0); [contradiction|]. eauto.
  - intros d ms -> Hd Hp. destruct (String.eqb_spec d ""); [contradiction|].
    rewrite Hp. eauto.
  - intros d -> Hd Hp. destruct (String.eqb_spec d ""); [contradiction|].
    rewrite Hp. split; [reflexivity|]. destruct tr; reflexivity.
  - intros Hno. destruct (pingInterval cfg) as [[ms|d]|] eqn:Hpi.
    + destruct (Z.eqb_spec ms 0); [eauto|].
      exfalso. apply Hno. left. exists ms. auto.
    + destruct (String.eqb_spec d ""); [eauto|].
      exfalso. apply Hno. right. exists d. auto.
    + eauto.
  - intros t. unfold ping_configured, timer_running.
    destruct (pingInterval cfg) as [[ms|d]|] eqn:Hpi.
    + destruct (Z.eqb_spec ms 0) as [->|Hms]; intros H; inversion H; subst;
        cbn; split; try discriminate; auto.
      * intros [(x & Hx & Hne)|(x & Hx & _)]; [|discriminate].
        inversion Hx; subst. contradiction.
      * intros _. left. exists ms. auto.
    + destruct (String.eqb_spec d "") as [->|Hd].
      * intros H; inversion H; subst; cbn; split; [discriminate|].
        intros [(x & Hx & _)|(x & Hx & Hne)]; [discriminate|].
        inversion Hx; subst. contradiction.
      * destruct (parse d); intros H; inversion H; subst; cbn.
        split; [|reflexivity]. intros _. right. exists d. auto.
    + intros H; inversion H; subst; cbn. split; [discriminate|].
      intros [(x & Hx & _)|(x & Hx & _)]; discriminate.
Qed.

Lemma streams_without_uid (uid : string) l :
  existsb (fun s : Stream Ctx => String.eqb (getUid s) uid) l = false ->
  filter (fun s => negb (String.eqb (getUid s) uid)) l = l.
Proof.
  induction l as [|x l IH]; simpl; [reflexivity|].
  intros H. apply orb_false_iff in H. destruct H as [Hx Hl].
  rewrite Hx. simpl. rewrite (IH Hl). reflexivity.
Qed.

(** X14.  The wiring of [createStream].  When the uid is already live the
    call throws DuplicateStream: it emits nothing, leaves every stream as it
    was, and the close of that response later does nothing.  Otherwise the
    call registers a stream without subscriptions and emits one 'connect'
    event with the uid and the context of the call; when the response then
    closes, one 'disconnect' event with the same uid and context is emitted
    and the manager is back in the state before the call; a second run of
    the observer does nothing.  Neither the call nor the close ever calls
    the bus: connections are not replicated. *)
Theorem createStream_announces_locally (params : CreateStreamParams Ctx) t :
  let uid := create_uid params in
  let context := create_context params in
  let o := createStream params t in
  let closed := response_closes params t (final o) in
  bus_calls (effects o) = []
  /\ bus_calls (effects closed) = []
  /\ (if has_stream (manager t) uid
      then result o = Thrown (DuplicateStream uid)
           /\ final o = t /\ effects o = []
           /\ no_op (response_closes params t) (final o)
      else (exists observer,
              result o = Returned (new_stream params, observer))
           /\ streams (manager (final o))
              = streams (manager t) ++ [new_stream params]
           /\ effects o = [Emit (OnConnect uid (Some context))]
           /\ result closed = Returned tt
           /\ effects closed = [Emit (OnDisconnect uid (Some context))]
           /\ manager (final closed) = manager t
           /\ no_op (response_closes params t) (final closed)).
Proof.
  cbv zeta. unfold response_closes, createStream, sm_createStream.
  rewrite (bind_pure getManager _ t (manager t) t eq_refl).
  cbn [with_lifecycle create_uid create_context create_sink onConnect
       onDisconnect].
  destruct (has_stream (manager t) (create_uid params)) eqn:Hlive.
  - cbn. repeat split.
  - unfold no_op, sm_stream_closed.
    cbn -[filter has_stream].
    assert (Hnow : has_stream
                     {| streams := streams (manager t) ++ [new_stream params];
                        securedChannels := securedChannels (manager t) |}
                     (create_uid params) = true).
    { unfold has_stream. cbn [streams]. rewrite existsb_app. cbn.
      rewrite String.eqb_refl. apply orb_true_r. }
    unfold new_stream in Hnow. rewrite Hnow.
    cbn -[filter has_stream].
    assert (Hback : filter
                      (fun s => negb (String.eqb (getUid s) (create_uid params)))
                      (streams (manager t) ++ [new_stream params])
                    = streams (manager t)).
    { rewrite filter_app. cbn. rewrite String.eqb_refl. cbn.
      rewrite app_nil_r. apply streams_without_uid. exact Hlive. }
    unfold new_stream in Hback. rewrite Hback.
    assert (Hm : {| streams := streams (manager t);
                    securedChannels := securedChannels (manager t) |}
                 = manager t) by (destruct (manager t); reflexivity).
    rewrite Hm, Hlive. cbn. repeat split. eauto.
Qed.

End Composition.

(* ------------------------------------------------------------------ *)
(** ** The further properties on the sample instances *)

(** The sample run on the instance without a bus calls no bus. *)
Lemma no_bus_sample :
  bus sample_local_instance = None
  /\ bus_calls (snd (perform_all sample_calls sample_local_instance)) = [].
Proof.
  split; [reflexivity|].
  exact (no_bus_no_bus_call sample_calls sample_local_instance eq_refl).
Defined.

(** Excluding "alice" or the array ["zed", "alice", "alice"] comes to the
    same: bob alone is written. *)
Lemma exclusion_sample :
  broadcastExcept "news" (BString "hi") (OneSender "alice") sample_instance
  = broadcastExcept "news" (BString "hi")
      (ManySenders ["zed"; "alice"; "alice"]) sample_instance
  /\ written (effects (broadcastExcept "news" (BString "hi")
                         (OneSender "alice") sample_instance))
     = [("bob", {| data_channel := "news"; data_payload := BString "hi" |})].
Proof.
  split; [|reflexivity].
  apply (exclusion_depends_on_the_set_only "news" (BString "hi")
           (OneSender "alice") (ManySenders ["zed"; "alice"; "alice"])
           sample_instance).
  intros s [<-|[<-|[]]]; simpl; split.
  - intros _. right. left. reflexivity.
  - intros _. reflexivity.
  - intros H. discriminate H.
  - intros [H|[H|[H|[]]]]; discriminate H.
Defined.

(** On the faulty sample instance [broadcast] throws at mallory after it
    has published. *)
Lemma publish_before_write_sample :
  result (broadcast "news" (Some (BString "hi")) sample_faulty_instance)
  = Thrown (TransportWriteFailure "mallory")
  /\ published (effects (broadcast "news" (Some (BString "hi"))
                                   sample_faulty_instance))
     = [("transmit::broadcast", MsgBroadcast "news" (BString "hi"))].
Proof.
  destruct (broadcast_publishes_before_writing "news" (Some (BString "hi"))
              sample_faulty_instance
              {| bus_transport := transport_driver "memory";
                 retryQueue_enabled := true |}
              mallory eq_refl eq_refl) as (Hr & Hp & _).
  split; [exact Hr | exact Hp].
Defined.

(** A broadcast of "hi" on the sample instance reaches erin on the remote
    one. *)
Lemma replication_sample :
  published (effects (broadcast "news" (Some (BString "hi")) sample_instance))
  = [("transmit::broadcast", MsgBroadcast "news" (BString "hi"))]
  /\ written (effects (on_bus_message (MsgBroadcast "news" (BString "hi"))
                                      sample_remote_instance))
     = [("erin", {| data_channel := "news"; data_payload := BString "hi" |})].
Proof.
  destruct (broadcast_reaches_remote_subscribers "news" (Some (BString "hi"))
              sample_instance sample_remote_instance
              {| bus_transport := transport_driver "memory";
                 retryQueue_enabled := true |} eq_refl)
    as (Hp & _ & Hw & _).
  split; [exact Hp | exact Hw].
Defined.

(** carol, subscribed to '$$transmit/ping', receives a ping from a broadcast
    on that channel. *)
Lemma ping_channel_sample :
  truthy_arg None = false
  /\ written (effects (broadcast "$$transmit/ping" None
                                 sample_ping_listener_instance))
     = [("carol", ping_message)].
Proof.
  split; [reflexivity|].
  exact (broadcast_on_the_ping_channel None sample_ping_listener_instance
           eq_refl).
Defined.

(** The sample run contains a shutdown: the timer is silent afterwards. *)
Lemma timer_sample :
  has_shutdown sample_calls = true
  /\ no_op interval_fires (fst (perform_all sample_calls sample_instance)).
Proof.
  destruct (only_shutdown_stops_the_timer sample_calls sample_instance)
    as (_ & H & _).
  split; [reflexivity | exact (H eq_refl)].
Defined.

(** dave connects to the sample instance and leaves; alice, who is live,
    is refused a second connection, and the close of that response leaves
    her stream where it was. *)
Lemma createStream_sample :
  effects (createStream dave_connects sample_instance)
  = [Emit (OnConnect "dave" (Some "session-5"))]
  /\ effects (response_closes dave_connects sample_instance
                (final (createStream dave_connects sample_instance)))
     = [Emit (OnDisconnect "dave" (Some "session-5"))]
  /\ result (createStream alice_reconnects sample_instance)
     = Thrown (DuplicateStream "alice")
  /\ no_op (response_closes alice_reconnects sample_instance)
           (final (createStream alice_reconnects sample_instance))
  /\ final (createStream alice_reconnects sample_instance) = sample_instance.
Proof.
  pose proof (createStream_announces_locally dave_connects sample_instance)
    as Hd.
  pose proof (createStream_announces_locally alice_reconnects sample_instance)
    as Ha.
  cbv zeta in Hd, Ha.
  destruct Hd as (_ & _ & Hd). destruct Ha as (_ & _ & Ha).
  change (has_stream (manager sample_instance) (create_uid dave_connects))
    with false in Hd.
  change (has_stream (manager sample_instance) (create_uid alice_reconnects))
    with true in Ha.
  cbv iota in Hd, Ha.
  destruct Hd as (_ & _ & Hc & _ & Hclose & _).
  destruct Ha as (Hr & Hf & _ & Hno).
  split; [exact Hc|]. split; [exact Hclose|]. split; [exact Hr|].
  split; [exact Hno | exact Hf].
Defined.

(** The sample instance was subscribed to 'transmit::broadcast' by its
    constructor, and the sample run publishes there only. *)
Lemma constructed_sample :
  snd (new_Transmit (Ctx := string) sample_parse sample_config
         (Some (transport_driver "memory")))
  = [BusSubscribe "transmit::broadcast"]
  /\ published (snd (perform_all sample_calls sample_instance))
     = [("transmit::broadcast", MsgSubscribe "sports" "bob");
        ("transmit::broadcast", MsgBroadcast "news" (BString "hi"));
        ("transmit::broadcast", MsgUnsubscribe "sports" "bob")]
  /\ Forall (fun pm => fst pm = "transmit::broadcast")
            (published (snd (perform_all sample_calls sample_instance))).
Proof.
  destruct (constructed_instance_publishes_where_it_subscribed
              sample_parse sample_config (transport_driver "memory")
              sample_manager sample_calls) as (Hs & Hp & _).
  destruct (Hp (sample_built (Some (transport_driver "memory"))) eq_refl)
    as (_ & _ & Hall).
  split; [exact Hs|]. split; [reflexivity | exact Hall].
Defined.

(** "30s" starts a timer of 30000 milliseconds; "soon" makes the constructor
    throw, the bus having been subscribed to. *)
Lemma constructor_sample :
  (exists t : Transmit string,
     fst (new_Transmit sample_parse sample_config
            (Some (transport_driver "memory"))) = Returned t
     /\ interval t = Some {| delay := 30000; cleared := false |})
  /\ fst (new_Transmit (Ctx := string) sample_parse sample_unreadable_config
            (Some (transport_driver "memory")))
     = Thrown (InvalidDuration "soon")
  /\ snd (new_Transmit (Ctx := string) sample_parse sample_unreadable_config
            (Some (transport_driver "memory")))
     = [BusSubscribe "transmit::broadcast"].
Proof.
  destruct (constructor_starts_the_timer_when_configured (Ctx := string)
              sample_parse sample_config
              (Some (transport_driver "memory"))) as (_ & Hok & _).
  destruct (constructor_starts_the_timer_when_configured (Ctx := string)
              sample_parse sample_unreadable_config
              (Some (transport_driver "memory"))) as (_ & _ & Hbad & _).
  split.
  - apply (Hok "30s" 30000%Z eq_refl); [discriminate | reflexivity].
  - apply (Hbad "soon" eq_refl); [discriminate | reflexivity].
Defined.
